(** * Bronze-layer validator: [python/bronze/validate_bronze_files.py]

    A shallow embedding of the validation core ([normalize_cols],
    [pick_candidate_keys], [basic_profile], [validate_year]) together with the
    thin layer of the outside world it touches (environment variables, the
    directory listing, the spreadsheet loader), and the properties of the
    batch result that follow from the code.  The report writer and the
    [main] of the validator, and the pipeline runner of
    [python/run_pipeline.py], follow.

    Conventions.
    - A Python [str] is a [string]; every [ascii] stands for one character
      (code points below 256), so that [len], [lower], [strip] and the
      ordering used by [sorted] are the ones Python has on these strings.
    - A Python [dict] is an association list in insertion order
      ([dict_get] / [dict_set]); the payload is a JSON-like [value].
    - A Python [int] is a [Z]; list lengths and counts are computed in [nat]
      and injected with [Z.of_nat].
    - An exception that leaves a function is the left summand of its result.
    - A table is what [pd.read_excel] returns for one sheet: text header
      labels (for which [str(c)] is [c]) over rows of cells; pandas
      operations on it ([shape], [isna], [duplicated], [sum]) follow the
      pandas documentation.
    - The surroundings do not change during a run: loading the same file
      twice gives the same answer. *)

From Stdlib Require Import String Ascii DecimalString.
From Stdlib Require Import ZArith NArith Bool Lia Arith List Permutation.
From Stdlib Require Import Sorted.
Import ListNotations.

Local Open Scope string_scope.
Local Open Scope list_scope.
Local Open Scope nat_scope.

(** ** Python strings *)

Module PyStr.

(** [c.isspace()] for one character: the white space [str.strip()] removes. *)
Definition is_space (c : ascii) : bool :=
  let n := nat_of_ascii c in
  ((9 <=? n) && (n <=? 13)) || ((28 <=? n) && (n <=? 32))
  || (n =? 133) || (n =? 160).

(** [c.lower()] for one character. *)
Definition lower_char (c : ascii) : ascii :=
  let n := nat_of_ascii c in
  if ((65 <=? n) && (n <=? 90))
     || ((192 <=? n) && (n <=? 222) && negb (n =? 215))
  then ascii_of_nat (n + 32) else c.

(** [s.lower()] *)
Fixpoint lower (s : string) : string :=
  match s with
  | EmptyString => EmptyString
  | String c s' => String (lower_char c) (lower s')
  end.

Fixpoint lstrip (s : string) : string :=
  match s with
  | EmptyString => EmptyString
  | String c s' => if is_space c then lstrip s' else s
  end.

Fixpoint rstrip (s : string) : string :=
  match s with
  | EmptyString => EmptyString
  | String c s' =>
      match rstrip s' with
      | EmptyString => if is_space c then EmptyString else String c EmptyString
      | r => String c r
      end
  end.

(** [s.strip()] *)
Definition strip (s : string) : string := rstrip (lstrip s).

(** [s.startswith(p)] *)
Definition startswith (s p : string) : bool := String.prefix p s.

(** [x in xs] for a tuple or list of strings. *)
Definition mem (x : string) (xs : list string) : bool :=
  existsb (String.eqb x) xs.

(** [str(n)] for an integer. *)
Definition str_int (n : Z) : string := NilZero.string_of_int (Z.to_int n).

(** [xs == ys] on lists of strings. *)
Definition list_eqb (xs ys : list string) : bool :=
  if list_eq_dec string_dec xs ys then true else false.

End PyStr.
Import PyStr.

(** ** Python dictionaries, in insertion order *)

Definition dict (V : Type) : Type := list (string * V).

Fixpoint dict_get {V} (k : string) (d : dict V) : option V :=
  match d with
  | [] => None
  | (k', v) :: d' => if String.eqb k k' then Some v else dict_get k d'
  end.

(** [d[k] = v]: an existing key keeps its place, a new key goes last. *)
Fixpoint dict_set {V} (k : string) (v : V) (d : dict V) : dict V :=
  match d with
  | [] => [(k, v)]
  | (k', v') :: d' =>
      if String.eqb k k' then (k, v) :: d' else (k', v') :: dict_set k v d'
  end.

Definition dict_keys {V} (d : dict V) : list string := map fst d.

(** ** JSON-like values of the report payload *)

#[local] Set Warnings "-register-all".

Inductive value : Type :=
| VBool (b : bool)
| VInt (z : Z)
| VStr (s : string)
| VList (l : list value)
| VTuple (l : list value)
| VDict (d : list (string * value)).

(** [v[k]] when [v] is a dictionary. *)
Definition value_get (k : string) (v : value) : option value :=
  match v with
  | VDict d => dict_get k d
  | _ => None
  end.

(** ** [normalize_cols] and [pick_candidate_keys] *)

(** [[str(c).strip() for c in cols]]; header labels are text. *)
Definition normalize_cols (cols : list string) : list string :=
  map strip cols.

Definition id_cliente_aliases : list string :=
  ["id_cliente"; "cliente_id"; "customer_id"].

Definition dt_aliases : list string :=
  ["data"; "dt"; "data_compra"; "purchase_date"; "order_date"].

Definition id_pedido_aliases : list string :=
  ["id_pedido"; "pedido_id"; "order_id"; "id_transacao"; "transacao_id";
   "transaction_id"].

(** [for c in columns: if c.lower() in aliases: x = c; break], from [x = None]. *)
Definition first_alias (aliases columns : list string) : option string :=
  find (fun c => mem (lower c) aliases) columns.

(** Truth value of a variable that is [None] or a string. *)
Definition truthy (x : option string) : bool :=
  match x with
  | None => false
  | Some s => negb (String.eqb s "")
  end.

Definition pick_candidate_keys (columns : list string) : dict (list string) :=
  let cols := map lower columns in
  let candidates : dict (list string) := [] in
  let id_cliente := first_alias id_cliente_aliases columns in
  let dt := first_alias dt_aliases columns in
  let id_pedido := first_alias id_pedido_aliases columns in
  let candidates :=
    match id_pedido with
    | Some p => if truthy id_pedido
                then dict_set "dup_order_id" [p] candidates else candidates
    | None => candidates
    end in
  let candidates :=
    match id_cliente, dt with
    | Some c, Some d => if truthy id_cliente && truthy dt
                        then dict_set "dup_cliente_data" [c; d] candidates
                        else candidates
    | _, _ => candidates
    end in
  candidates.

(** ** Tables, as the loader hands them over

    A sheet is a header row of labels and the data rows under it.  A cell
    that is short of its row reads as [NaN], as in pandas. *)

Inductive cell : Type :=
| NaN
| CInt (z : Z)
| CStr (s : string).

Definition cell_eq_dec (a b : cell) : {a = b} + {a <> b}.
Proof. decide equality; [apply Z.eq_dec | apply string_dec]. Defined.

Definition row_eq_dec : forall a b : list cell, {a = b} + {a <> b} :=
  list_eq_dec cell_eq_dec.

Record DataFrame : Type := mkDataFrame {
  columns : list string;
  rows : list (list cell)
}.

Module Pandas.

(** [df.shape] *)
Definition shape (df : DataFrame) : nat * nat :=
  (length (rows df), length (columns df)).

(** [df.empty]: some axis has length 0. *)
Definition empty (df : DataFrame) : bool :=
  (length (rows df) =? 0) || (length (columns df) =? 0).

Definition isna (c : cell) : bool :=
  match c with NaN => true | _ => false end.

(** [df.isna().sum()]: per column, in column order, the number of nulls. *)
Fixpoint isna_sum_cols (cols : list string) (rs : list (list cell))
  : list (string * nat) :=
  match cols with
  | [] => []
  | c :: cs =>
      (c, length (filter isna (map (hd NaN) rs)))
        :: isna_sum_cols cs (map (@tl cell) rs)
  end.

Definition isna_sum (df : DataFrame) : list (string * nat) :=
  isna_sum_cols (columns df) (rows df).

(** [Series.to_dict()] *)
Definition to_dict (s : list (string * nat)) : dict nat :=
  fold_left (fun d kv => dict_set (fst kv) (snd kv) d) s [].

(** The values of one row in the columns named by [subset], in the
    frame's column order: what [duplicated] compares. *)
Fixpoint subset_values (subset cols : list string) (row : list cell)
  : list cell :=
  match cols with
  | [] => []
  | c :: cs =>
      if mem c subset
      then hd NaN row :: subset_values subset cs (tl row)
      else subset_values subset cs (tl row)
  end.

(** [keep='first']: a key is marked when it was met before. *)
Fixpoint duplicated_first (seen keys : list (list cell)) : list bool :=
  match keys with
  | [] => []
  | k :: ks =>
      (if in_dec row_eq_dec k seen then true else false)
        :: duplicated_first (k :: seen) ks
  end.

(** [df.duplicated(subset=subset)], [subset=None] meaning all columns.
    An empty frame has an empty answer.  The program passes a [subset]
    only after checking that its labels are columns of the frame, so the
    [KeyError] of pandas for a foreign label does not arise. *)
Definition duplicated (df : DataFrame) (subset : option (list string))
  : list bool :=
  if empty df then []
  else
    let sub := match subset with None => columns df | Some s => s end in
    duplicated_first [] (map (subset_values sub (columns df)) (rows df)).

(** [.sum()] of a boolean series. *)
Definition sum (bs : list bool) : nat := length (filter (fun b => b) bs).

End Pandas.

(** ** [sorted] *)

(** [sorted(xs)] on strings.  The order is total and antisymmetric, so the
    sorted list is determined by the elements alone and insertion sort
    computes it. *)
Fixpoint insert_str (x : string) (l : list string) : list string :=
  match l with
  | [] => [x]
  | y :: l' => if String.leb x y then x :: l else y :: insert_str x l'
  end.

Definition sorted (l : list string) : list string :=
  fold_right insert_str [] l.

(** [sorted(items, key=lambda x: x[1], reverse=True)]: stable, so equal
    counts stay in their original order. *)
Fixpoint insert_desc (x : string * nat) (l : list (string * nat))
  : list (string * nat) :=
  match l with
  | [] => [x]
  | y :: l' => if snd y <=? snd x then x :: l else y :: insert_desc x l'
  end.

Definition sorted_by_count_desc (l : list (string * nat))
  : list (string * nat) :=
  fold_right insert_desc [] l.

(** ** [basic_profile] *)

Definition basic_profile (df : DataFrame) : value :=
  let '(n_rows, n_cols) := Pandas.shape df in
  let null_counts := Pandas.to_dict (Pandas.isna_sum df) in
  let total_nulls := list_sum (map snd (Pandas.isna_sum df)) in
  let top_nulls := firstn 10 (sorted_by_count_desc null_counts) in
  VDict
    [("rows", VInt (Z.of_nat n_rows));
     ("cols", VInt (Z.of_nat n_cols));
     ("total_nulls", VInt (Z.of_nat total_nulls));
     ("top_nulls",
       VList (map (fun kv => VTuple [VStr (fst kv); VInt (Z.of_nat (snd kv))])
                  (filter (fun kv => 0 <? snd kv) top_nulls)))].

(** ** Paths and the outside world *)

(** A path is its sequence of parts; [p / s] adds the part [s].  The
    segments joined here are a single relative name each: the literals of
    the code, the year in decimal and the project name (a segment that is
    itself an absolute path would replace [p] in pathlib). *)
Definition Path : Type := list string.

Definition path_div (p : Path) (s : string) : Path := p ++ [s].

(** [p.name] *)
Definition name (p : Path) : string := last p "".

Fixpoint rfind (ch : ascii) (s : string) : option nat :=
  match s with
  | EmptyString => None
  | String c s' =>
      match rfind ch s' with
      | Some i => Some (S i)
      | None => if Ascii.eqb c ch then Some 0 else None
      end
  end.

(** [p.stem]: the name up to its last dot, unless that dot comes first or
    last. *)
Definition stem (p : Path) : string :=
  let n := name p in
  match rfind "."%char n with
  | Some i =>
      if (0 <? i) && (i <? String.length n - 1) then substring 0 i n else n
  | None => n
  end.

Inductive exn : Type :=
| RuntimeError (msg : string)
| FileNotFoundError (msg : string)
| LoadError (repr : string)
| OSError (repr : string).

(** What the program reads from its surroundings.  [read_excel] answers
    with the table of the sheet asked for ([inl 0]: the first sheet, [inr s]:
    the sheet named [s]) or with the [repr] of the exception it raised.
    [expanduser_resolve s] is [Path(s).expanduser().resolve()], which
    raises when the home directory of a [~user] prefix is not known or the
    path cannot be resolved; [path_exists p] is [p.exists()], which raises
    the errors of the file system other than absence, such as
    [PermissionError].  Listing a directory with [glob] skips what may not
    be read, and [resolve] is applied to the year's directory once it is
    known to exist; neither is taken to raise. *)
Record World : Type := mkWorld {
  getenv : string -> option string;
  expanduser_resolve : string -> exn + Path;
  resolve : Path -> Path;
  path_str : Path -> string;
  path_exists : Path -> exn + bool;
  glob_sorted : Path -> string -> list Path;
  read_excel : Path -> nat + string -> string + DataFrame
}.

Record LakePaths : Type := mkLakePaths {
  project : string;
  datalake_root : Path
}.

Definition bronze (p : LakePaths) : Path :=
  path_div (path_div (datalake_root p) "01_bronze_raw") (project p).

Definition _env (w : World) (nm : string) (default : option string) : string :=
  let fallback := match default with Some d => d | None => "" end in
  match getenv w nm with
  | Some v => if String.eqb v "" then fallback else v
  | None => fallback
  end.

Definition resolve_paths (w : World) : exn + LakePaths :=
  let project := _env w "TOT_PROJECT" (Some "PROJ_05_FOOD_COMMERCE") in
  let root := _env w "TOT_DATALAKE_ROOT" None in
  if String.eqb root ""
  then inl (RuntimeError
         "Defina TOT_DATALAKE_ROOT (via setx) apontando para a pasta datalake.")
  else match expanduser_resolve w root with
       | inl e => inl e
       | inr datalake_root => inr (mkLakePaths project datalake_root)
       end.

Definition year_dir (bronze_project_root : Path) (year : Z) : Path :=
  path_div (path_div bronze_project_root "transactions") (str_int year).

Definition find_xlsx_files (w : World) (bronze_project_root : Path) (year : Z)
  : exn + list Path :=
  let base := year_dir bronze_project_root year in
  match path_exists w base with
  | inl e => inl e
  | inr found =>
      if negb found
      then inl (FileNotFoundError
             ("Pasta n" ++ String (ascii_of_nat 227) "o encontrada: "
                ++ path_str w base))
      else inr (glob_sorted w base "*.xlsx")
  end.

(** The loader always asks for one sheet, so the answer is one table and the
    fallback for a mapping of sheets is never taken. *)
Definition safe_read_excel (w : World) (path : Path) (sheet : option string)
  : string + DataFrame :=
  match sheet with
  | None => read_excel w path (inl 0)
  | Some s => read_excel w path (inr s)
  end.

(** ** [validate_year] *)

(** Lines 160-171: the mismatch record of one file, or [None]. *)
Definition schema_mismatch (fname : string) (cols ref_cols : list string)
  : option value :=
  if negb (list_eqb cols ref_cols) then
    let missing := filter (fun c => negb (mem c cols)) ref_cols in
    let extra := filter (fun c => negb (mem c ref_cols)) cols in
    let order_diff :=
      list_eqb (sorted cols) (sorted ref_cols)
      && negb (list_eqb cols ref_cols) in
    Some (VDict
      [("file", VStr fname);
       ("missing_cols", VList (map VStr missing));
       ("extra_cols", VList (map VStr extra));
       ("order_diff_only", VBool order_diff)])
  else None.

(** Lines 176-183: the duplicate counts of one file. *)
Definition dup_info (df : DataFrame) (key_candidates : dict (list string))
  : dict Z :=
  let dup_info :=
    dict_set "dup_full_row_count"
      (Z.of_nat (Pandas.sum (Pandas.duplicated df None))) [] in
  fold_left
    (fun dup_info kv =>
       let '(kname, kcols) := kv in
       if forallb (fun c => mem c (columns df)) kcols
       then dict_set kname
              (Z.of_nat (Pandas.sum (Pandas.duplicated df (Some kcols))))
              dup_info
       else dup_info)
    key_candidates dup_info.

Definition VInts (d : dict Z) : value :=
  VDict (map (fun kv => (fst kv, VInt (snd kv))) d).

(** Lines 185-191: the entry of one loaded file. *)
Definition file_result (w : World) (f : Path) (df : DataFrame)
    (ref_cols : list string) (key_candidates : dict (list string)) : value :=
  let cols := normalize_cols (columns df) in
  VDict
    [("file", VStr (name f));
     ("path", VStr (path_str w f));
     ("profile", basic_profile df);
     ("duplicates", VInts (dup_info df key_candidates));
     ("schema_matches_reference", VBool (list_eqb cols ref_cols))].

(** The three lists the loop over the files fills. *)
Record Acc : Type := mkAcc {
  results : list value;
  schema_mismatches : list value;
  read_errors : list value
}.

(** One turn of [for f in files: try: ... except Exception as e: ...].
    Past the load nothing in the body raises. *)
Definition loop_body (w : World) (sheet : option string)
    (ref_cols : list string) (key_candidates : dict (list string))
    (acc : Acc) (f : Path) : Acc :=
  match safe_read_excel w f sheet with
  | inr df =>
      let cols := normalize_cols (columns df) in
      let schema_mismatches :=
        match schema_mismatch (name f) cols ref_cols with
        | Some mismatch => schema_mismatches acc ++ [mismatch]
        | None => schema_mismatches acc
        end in
      mkAcc (results acc ++ [file_result w f df ref_cols key_candidates])
            schema_mismatches
            (read_errors acc)
  | inl e =>
      mkAcc (results acc)
            (schema_mismatches acc)
            (read_errors acc
               ++ [VDict [("file", VStr (name f)); ("error", VStr e)]])
  end.

(** Truth value of a list: [if xs:]. *)
Definition nonempty {A} (xs : list A) : bool :=
  match xs with [] => false | _ :: _ => true end.

(** The test of line 140 on one file. *)
Definition name_ok (year : Z) (f : Path) : bool :=
  startswith (stem f) (str_int year ++ "-") && (String.length (stem f) =? 7).

Definition validate_year (w : World) (year : Z) (sheet : option string)
    (strict_name_pattern : bool) : exn + value :=
  match resolve_paths w with
  | inl e => inl e
  | inr p =>
  let bronze_root := bronze p in
  match find_xlsx_files w bronze_root year with
  | inl e => inl e
  | inr files =>
  match files with
  | [] =>
      inr (VDict
        [("year", VInt year);
         ("status", VStr "no_files");
         ("message",
           VStr ("Nenhum .xlsx encontrado em "
                   ++ path_str w (year_dir bronze_root year)))])
  | ref_path :: _ =>
  let name_issues :=
    if strict_name_pattern
    then map name (filter (fun f => negb (name_ok year f)) files)
    else [] in
  match safe_read_excel w ref_path sheet with
  | inl e => inl (LoadError e)
  | inr ref_df =>
  let ref_cols := normalize_cols (columns ref_df) in
  let key_candidates := pick_candidate_keys ref_cols in
  let acc :=
    fold_left (loop_body w sheet ref_cols key_candidates) files
              (mkAcc [] [] []) in
  let status := "ok" in
  let status :=
    if nonempty (read_errors acc) then "error"
    else if nonempty (schema_mismatches acc) || nonempty name_issues
         then "warning"
         else status in
  inr (VDict
    [("year", VInt year);
     ("status", VStr status);
     ("base_dir", VStr (path_str w (resolve w (year_dir bronze_root year))));
     ("reference_file", VStr (name ref_path));
     ("reference_columns", VList (map VStr ref_cols));
     ("strict_name_pattern", VBool strict_name_pattern);
     ("name_issues", VList (map VStr name_issues));
     ("schema_mismatches", VList (schema_mismatches acc));
     ("read_errors", VList (read_errors acc));
     ("files", VList (results acc))])
  end end end end.

(** ** The batch, seen from its inputs *)

Definition load_fails (w : World) (sheet : option string) (f : Path) : bool :=
  match safe_read_excel w f sheet with inl _ => true | inr _ => false end.

(** The files that load, each with its table, in discovery order. *)
Definition loaded (w : World) (sheet : option string) (files : list Path)
  : list (Path * DataFrame) :=
  flat_map (fun f => match safe_read_excel w f sheet with
                     | inr df => [(f, df)]
                     | inl _ => []
                     end) files.

(** The files that do not, each with the description of its failure. *)
Definition failed (w : World) (sheet : option string) (files : list Path)
  : list (Path * string) :=
  flat_map (fun f => match safe_read_excel w f sheet with
                     | inr _ => []
                     | inl e => [(f, e)]
                     end) files.

Definition schema_differs (w : World) (sheet : option string)
    (ref_cols : list string) (f : Path) : bool :=
  match safe_read_excel w f sheet with
  | inr df => negb (list_eqb (normalize_cols (columns df)) ref_cols)
  | inl _ => false
  end.

Definition read_error_entry (fe : Path * string) : value :=
  VDict [("file", VStr (name (fst fe))); ("error", VStr (snd fe))].

(** The entry and the mismatch records a loaded file adds to the batch. *)
Definition file_entry (w : World) (ref_cols : list string)
    (key_candidates : dict (list string)) (fd : Path * DataFrame) : value :=
  file_result w (fst fd) (snd fd) ref_cols key_candidates.

Definition mismatch_of (ref_cols : list string) (fd : Path * DataFrame)
  : list value :=
  match schema_mismatch (name (fst fd)) (normalize_cols (columns (snd fd)))
                        ref_cols with
  | Some mismatch => [mismatch]
  | None => []
  end.

Definition name_issue (year : Z) (f : Path) : bool := negb (name_ok year f).

(** The same surroundings with another loader. *)
Definition with_read_excel (w : World)
    (r : Path -> nat + string -> string + DataFrame) : World :=
  mkWorld (getenv w) (expanduser_resolve w) (resolve w) (path_str w)
          (path_exists w) (glob_sorted w) r.

Definition has_alias (aliases columns : list string) : Prop :=
  exists c, In c columns /\ In (lower c) aliases.

(** The record of a file that differs from the reference in column order
    only. *)
Definition order_only_record (fname : string) : value :=
  VDict [("file", VStr fname);
         ("missing_cols", VList []);
         ("extra_cols", VList []);
         ("order_diff_only", VBool true)].

(** ** Duplicates, in the words of the specification

    Two rows agree on a set of columns when they hold the same value in
    every column of the table whose label is in the set; a row is a
    duplicate when some earlier row of the table agrees with it. *)

Definition agree_on (df : DataFrame) (kcols : list string)
    (r1 r2 : list cell) : bool :=
  forallb (fun j => negb (mem (nth j (columns df) "") kcols)
                    || (if cell_eq_dec (nth j r1 NaN) (nth j r2 NaN)
                        then true else false))
          (seq 0 (length (columns df))).

Definition repeats_earlier (same : list cell -> list cell -> bool)
    (rs : list (list cell)) (i : nat) : bool :=
  existsb (fun j => same (nth j rs []) (nth i rs [])) (seq 0 i).

Definition count_repeated_rows (same : list cell -> list cell -> bool)
    (rs : list (list cell)) : nat :=
  length (filter (repeats_earlier same rs) (seq 0 (length rs))).

(** ** A small data lake for the examples *)

Module Lake.

Definition sales_cols : list string :=
  ["order_id"; "cliente_id"; "data"; "valor"].

Definition jan : DataFrame :=
  mkDataFrame sales_cols
    [[CInt 1; CInt 10; CStr "2023-01-02"; CInt 50];
     [CInt 2; CInt 11; CStr "2023-01-03"; CInt 70]].

(** One row repeated whole, one more repeating an order id only. *)
Definition feb : DataFrame :=
  mkDataFrame sales_cols
    [[CInt 3; CInt 10; CStr "2023-02-01"; CInt 20];
     [CInt 3; CInt 10; CStr "2023-02-01"; CInt 20];
     [CInt 4; CInt 12; CStr "2023-02-05"; NaN];
     [CInt 4; CInt 13; CStr "2023-02-06"; CInt 30]].

(** The columns of the reference in another order, one header padded. *)
Definition mar : DataFrame :=
  mkDataFrame ["data"; " order_id"; "cliente_id"; "valor"]
    [[CStr "2023-03-01"; CInt 5; CInt 10; CInt 20]].

(** A sheet whose only header has a trailing blank. *)
Definition padded : DataFrame :=
  mkDataFrame ["order_id "] [[CInt 1]; [CInt 1]].

Definition root : Path := ["/lake"].

Definition dir (year : Z) : Path :=
  year_dir (path_div (path_div root "01_bronze_raw") "PROJ_05_FOOD_COMMERCE")
           year.

Definition file (year : Z) (nm : string) : Path := path_div (dir year) nm.

Definition jan_2023 : Path := file 2023 "2023-01.xlsx".
Definition mar_2023 : Path := file 2023 "2023-03.xlsx".

Definition rest_2023 : list Path :=
  [file 2023 "2023-02.xlsx"; mar_2023; file 2023 "broken.xlsx"].

Definition jan_2021 : Path := file 2021 "2021-01.xlsx".
Definition feb_2021 : Path := file 2021 "fevereiro.xlsx".

Definition paths : LakePaths := mkLakePaths "PROJ_05_FOOD_COMMERCE" root.

Definition listing (base : Path) : list Path :=
  if list_eqb base (dir 2023) then
    [file 2023 "2023-01.xlsx"; file 2023 "2023-02.xlsx";
     file 2023 "2023-03.xlsx"; file 2023 "broken.xlsx"]
  else if list_eqb base (dir 2022) then [file 2022 "2022-01.xlsx"]
  else if list_eqb base (dir 2021) then
    [file 2021 "2021-01.xlsx"; file 2021 "fevereiro.xlsx"]
  else [].

Definition load (p : Path) (sheet : nat + string) : string + DataFrame :=
  if list_eqb p (file 2023 "2023-01.xlsx") then inr jan
  else if list_eqb p (file 2023 "2023-02.xlsx") then inr feb
  else if list_eqb p (file 2023 "2023-03.xlsx") then inr mar
  else if list_eqb p (file 2022 "2022-01.xlsx") then inr padded
  else if list_eqb p (file 2021 "2021-01.xlsx") then inr jan
  else if list_eqb p (file 2021 "fevereiro.xlsx") then inr feb
  else inl "BadZipFile('File is not a zip file')".

Definition world : World :=
  mkWorld
    (fun nm => if String.eqb nm "TOT_DATALAKE_ROOT" then Some "/lake"
               else None)
    (fun s => inr [s])
    (fun p => p)
    (String.concat "/")
    (fun p => inr (existsb (fun y => list_eqb p (dir y))
                           [2020; 2021; 2022; 2023]%Z))
    (fun base _ => listing base)
    load.

End Lake.

(** ** Reports: [write_reports] and [main]

    Writing is modelled by the list of what is written, in order, and is
    taken to succeed: a directory created, the payload handed to
    [json.dump], the summary lines handed to [DataFrame(...).to_csv], a
    line printed.  The clock, the working directory and the formatting of
    a value inside an f-string belong to the surroundings of the
    process. *)

Record Process : Type := mkProcess {
  cwd_resolved : Path;
  now_stamp : string;
  format_value : value -> string
}.

(** A row of the summary table: the answers of [.get], [None] included. *)
Definition summary_line : Type := dict (option value).

Inductive event : Type :=
| Mkdir (p : Path)
| WriteJson (p : Path) (payload : value)
| WriteCsv (p : Path) (lines : list summary_line)
| Print (line : string).

Inductive failure : Type :=
| Raised (e : exn)
| KeyError (k : string)
| TypeError.

(** One character given by its code point. *)
Definition chr (n : nat) : string := String (ascii_of_nat n) EmptyString.

(** [v.get(k, default)] *)
Definition get_or (k : string) (v default : value) : value :=
  match value_get k v with
  | Some x => x
  | None => default
  end.

(** The items of [payload.get("files", [])]; the entry is a list whenever
    it is there. *)
Definition items_of (files : option value) : list value :=
  match files with
  | Some (VList l) => l
  | _ => []
  end.

(** Lines 231-244: the summary line of one entry of [files]. *)
Definition summary_row (year : value) (item : value) : summary_line :=
  let prof := get_or "profile" item (VDict []) in
  let dups := get_or "duplicates" item (VDict []) in
  [("year", Some year);
   ("file", value_get "file" item);
   ("rows", value_get "rows" prof);
   ("cols", value_get "cols" prof);
   ("total_nulls", value_get "total_nulls" prof);
   ("dup_full_row_count", value_get "dup_full_row_count" dups);
   ("dup_order_id", value_get "dup_order_id" dups);
   ("dup_cliente_data", value_get "dup_cliente_data" dups);
   ("schema_matches_reference", value_get "schema_matches_reference" item)].

Definition write_reports (pr : Process) (repo_root : Path) (payload : value)
  : list event * (failure + Path * Path) :=
  let logs_dir := path_div repo_root "logs" in
  let ts := now_stamp pr in
  match value_get "year" payload with
  | None => ([Mkdir logs_dir], inl (KeyError "year"))
  | Some year =>
      let json_path :=
        path_div logs_dir
          ("bronze_validate_" ++ format_value pr year ++ "_" ++ ts ++ ".json") in
      let csv_path :=
        path_div logs_dir
          ("bronze_validate_" ++ format_value pr year ++ "_" ++ ts
             ++ "_summary.csv") in
      let rows :=
        map (summary_row year) (items_of (value_get "files" payload)) in
      ([Mkdir logs_dir; WriteJson json_path payload; WriteCsv csv_path rows],
       inr (json_path, csv_path))
  end.

(** Truth value of a payload entry: [if payload.get(k):]. *)
Definition py_truth (v : option value) : bool :=
  match v with
  | None => false
  | Some (VBool b) => b
  | Some (VInt z) => negb (Z.eqb z 0)
  | Some (VStr s) => negb (String.eqb s "")
  | Some (VList l) => nonempty l
  | Some (VTuple l) => nonempty l
  | Some (VDict d) => nonempty d
  end.

(** [len(v)]; numbers and booleans have none. *)
Definition py_len (v : value) : option nat :=
  match v with
  | VBool _ => None
  | VInt _ => None
  | VStr s => Some (String.length s)
  | VList l => Some (length l)
  | VTuple l => Some (length l)
  | VDict d => Some (length d)
  end.

(** [v != s] for a string [s]. *)
Definition differs_from (v : value) (s : string) : bool :=
  match v with
  | VStr s' => negb (String.eqb s' s)
  | _ => true
  end.

(** [if payload.get(k): print(f"{label}{len(payload[k])}")] *)
Definition report_count (payload : value) (k label : string)
  : failure + list event :=
  if py_truth (value_get k payload) then
    match value_get k payload with
    | None => inl (KeyError k)
    | Some v =>
        match py_len v with
        | None => inl TypeError
        | Some n => inr [Print (label ++ str_int (Z.of_nat n))]
        end
    end
  else inr [].

Definition ok_line (pr : Process) (year : Z) (status : value) : string :=
  "[OK] Valida" ++ chr 231 ++ chr 227 ++ "o conclu" ++ chr 237 ++ "da: year="
    ++ str_int year ++ " status=" ++ format_value pr status.

Definition name_issues_label : string :=
  "[WARN] Arquivos fora do padr" ++ chr 227 ++ "o YYYY-MM.xlsx: ".

Definition schema_mismatches_label : string :=
  "[WARN] Diverg" ++ chr 234 ++ "ncias de colunas vs refer" ++ chr 234
    ++ "ncia: ".

Definition read_errors_label : string := "[ERROR] Erros de leitura: ".

(** The validator's [main], past the parsing of its arguments: what it
    writes and prints, and how it ends (an exit code or a failure). *)
Definition main (w : World) (pr : Process) (year : Z) (sheet : option string)
    (strict_names : bool) : list event * (failure + Z) :=
  let repo_root := cwd_resolved pr in
  match validate_year w year sheet strict_names with
  | inl e => ([], inl (Raised e))
  | inr payload =>
  match write_reports pr repo_root payload with
  | (written, inl e) => (written, inl e)
  | (written, inr (json_path, csv_path)) =>
  match value_get "status" payload with
  | None => (written, inl (KeyError "status"))
  | Some status =>
  let out :=
    written
      ++ [Print (ok_line pr year status);
          Print ("     JSON: " ++ path_str w json_path);
          Print ("     CSV : " ++ path_str w csv_path)] in
  match report_count payload "name_issues" name_issues_label with
  | inl e => (out, inl e)
  | inr warn_names =>
  let out := out ++ warn_names in
  match report_count payload "schema_mismatches" schema_mismatches_label with
  | inl e => (out, inl e)
  | inr warn_schema =>
  let out := out ++ warn_schema in
  match report_count payload "read_errors" read_errors_label with
  | inl e => (out, inl e)
  | inr errors =>
  let out := out ++ errors in
  (out, inr (if differs_from status "error" then 0%Z else 2%Z))
  end end end end end end.

(** ** The pipeline runner: [python/run_pipeline.py]

    Its [LakePaths], [_env] and [resolve_paths] are those of the validator,
    with three more tiers. *)

Module RunPipeline.

Definition silver (p : LakePaths) : Path :=
  path_div (path_div (datalake_root p) "02_silver") (project p).

Definition gold (p : LakePaths) : Path :=
  path_div (path_div (datalake_root p) "03_gold") (project p).

Definition exports (p : LakePaths) : Path :=
  path_div (path_div (datalake_root p) "03_gold_exports") (project p).

Definition ensure_dirs (p : LakePaths) : list event :=
  map Mkdir [bronze p; silver p; gold p; exports p].

Definition run_bronze_to_silver (w : World) (p : LakePaths) : list event :=
  [Print "[STEP] bronze_to_silver";
   Print ("  bronze : " ++ path_str w (bronze p));
   Print ("  silver : " ++ path_str w (silver p))].

Definition run_silver_to_gold (w : World) (p : LakePaths) : list event :=
  [Print "[STEP] silver_to_gold";
   Print ("  silver : " ++ path_str w (silver p));
   Print ("  gold   : " ++ path_str w (gold p))].

Definition run_gold_to_exports (w : World) (p : LakePaths) : list event :=
  [Print "[STEP] gold_to_exports";
   Print ("  gold   : " ++ path_str w (gold p));
   Print ("  exports: " ++ path_str w (exports p))].

(** The choices of [--stage]. *)
Definition stages : list string :=
  ["bronze_to_silver"; "silver_to_gold"; "gold_to_exports"; "all"].

Definition main (w : World) (stage : string) : list event * (failure + Z) :=
  match resolve_paths w with
  | inl e => ([], inl (Raised e))
  | inr p =>
      let out := ensure_dirs p in
      let out :=
        out ++ [Print ("[INFO] project = " ++ project p);
                Print ("[INFO] datalake_root = "
                         ++ path_str w (datalake_root p))] in
      let out :=
        if mem stage ["bronze_to_silver"; "all"]
        then out ++ run_bronze_to_silver w p else out in
      let out :=
        if mem stage ["silver_to_gold"; "all"]
        then out ++ run_silver_to_gold w p else out in
      let out :=
        if mem stage ["gold_to_exports"; "all"]
        then out ++ run_gold_to_exports w p else out in
      (out ++ [Print "[OK] done"], inr 0%Z)
  end.

End RunPipeline.

(** ** Words for the properties of the profile and of the names *)

Definition root_missing_message : string :=
  "Defina TOT_DATALAKE_ROOT (via setx) apontando para a pasta datalake.".

(** The nulls of one row within the first [n_cols] columns. *)
Definition nulls_in_row (n_cols : nat) (row : list cell) : nat :=
  length (filter Pandas.isna (map (fun j => nth j row NaN) (seq 0 n_cols))).

(** The null cells of a table, counted row by row. *)
Definition null_cells (df : DataFrame) : nat :=
  list_sum (map (nulls_in_row (length (columns df))) (rows df)).

(** The [top_nulls] pairs of a profile, as (label, count). *)
Definition top_nulls_of (df : DataFrame) : list (string * nat) :=
  filter (fun kv => 0 <? snd kv)
         (firstn 10 (sorted_by_count_desc
                       (Pandas.to_dict (Pandas.isna_sum df)))).

(** A label that [strip] leaves alone: no white space at either end. *)
Fixpoint last_char (s : string) : option ascii :=
  match s with
  | EmptyString => None
  | String c EmptyString => Some c
  | String _ s' => last_char s'
  end.

Definition first_char (s : string) : option ascii :=
  match s with
  | EmptyString => None
  | String c _ => Some c
  end.

Definition trimmed (s : string) : Prop :=
  (forall c, first_char s = Some c -> is_space c = false)
  /\ (forall c, last_char s = Some c -> is_space c = false).

(** An entry of [files] that says its columns are not the reference's. *)
Definition reports_mismatch (entry : value) : bool :=
  match value_get "schema_matches_reference" entry with
  | Some (VBool false) => true
  | _ => false
  end.

(** Counts that do not go up along a list. *)
Definition by_count_desc (a b : string * nat) : Prop := snd b <= snd a.

Definition has_count (n : nat) (kv : string * nat) : bool := snd kv =? n.

(** The name the comment of line 138 and the help of [--strict-names] ask
    for, [YYYY-MM.xlsx]: the year, a dash and a month from 01 to 12. *)
Definition two_digits (n : nat) : string :=
  String.append (if n <? 10 then "0" else "") (str_int (Z.of_nat n)).

Definition year_month_names (year : Z) : list string :=
  map (fun month =>
         (str_int year ++ "-" ++ two_digits month ++ ".xlsx")%string)
      (seq 1 12).

Definition is_year_month_name (year : Z) (nm : string) : bool :=
  mem nm (year_month_names year).

(** A year whose directory holds a month that does not exist and a name
    that is no month at all, beside a good one; all three load. *)
Module Odd.

Definition good : Path := Lake.file 2023 "2023-01.xlsx".
Definition thirteenth : Path := Lake.file 2023 "2023-13.xlsx".
Definition letters : Path := Lake.file 2023 "2023-ab.xlsx".

Definition world : World :=
  mkWorld
    (fun nm => if String.eqb nm "TOT_DATALAKE_ROOT" then Some "/lake"
               else None)
    (fun s => inr [s])
    (fun p => p)
    (String.concat "/")
    (fun p => inr (list_eqb p (Lake.dir 2023)))
    (fun base _ => if list_eqb base (Lake.dir 2023)
                   then [good; thirteenth; letters] else [])
    (fun _ _ => inr Lake.jan).

End Odd.

Module Run.

Definition process : Process :=
  mkProcess ["/repo"] "20240131_235959"
            (fun v => match v with
                      | VInt z => str_int z
                      | VStr s => s
                      | _ => "?"
                      end).

Definition no_root : World :=
  mkWorld (fun _ => None) (fun s => inr [s]) (fun p => p) (String.concat "/")
          (fun _ => inr true) (fun _ _ => []) Lake.load.

End Run.

(** * Properties *)

(** ** Strings and lists of strings *)

Lemma mem_In (x : string) (xs : list string) : mem x xs = true <-> In x xs.
Proof.
  unfold mem. rewrite existsb_exists. split.
  - intros [y [Hy Heq]]. apply String.eqb_eq in Heq. now subst.
  - intros H. exists x. split; [assumption | apply String.eqb_refl].
Qed.

Lemma mem_false (x : string) (xs : list string) :
  mem x xs = false <-> ~ In x xs.
Proof.
  rewrite <- mem_In. destruct (mem x xs); split; congruence.
Qed.

Lemma list_eqb_eq (xs ys : list string) : list_eqb xs ys = true <-> xs = ys.
Proof.
  unfold list_eqb. destruct (list_eq_dec string_dec xs ys); split; congruence.
Qed.

Lemma list_eqb_refl (xs : list string) : list_eqb xs xs = true.
Proof. now apply list_eqb_eq. Qed.

Lemma list_eqb_neq (xs ys : list string) : list_eqb xs ys = false <-> xs <> ys.
Proof.
  unfold list_eqb. destruct (list_eq_dec string_dec xs ys); split; congruence.
Qed.

Lemma lower_empty (s : string) : lower s = "" -> s = "".
Proof. destruct s; simpl; [reflexivity | discriminate]. Qed.

(** ** Candidate keys *)

Section CandidateKeys.

Variable aliases : list string.

Lemma first_alias_Some (columns : list string) (c : string) :
  first_alias aliases columns = Some c ->
  In c columns /\ In (lower c) aliases.
Proof.
  unfold first_alias. intros H. apply find_some in H.
  destruct H as [Hin Hm]. split; [assumption | now apply mem_In].
Qed.

Lemma first_alias_None (columns : list string) :
  first_alias aliases columns = None -> ~ has_alias aliases columns.
Proof.
  unfold first_alias. intros H [c [Hin Hal]].
  apply (find_none _ _ H) in Hin. apply mem_In in Hal. congruence.
Qed.

Lemma first_alias_has_alias (columns : list string) :
  has_alias aliases columns <-> exists c, first_alias aliases columns = Some c.
Proof.
  split.
  - intros Hal. destruct (first_alias aliases columns) as [c|] eqn:E.
    + now exists c.
    + now apply first_alias_None in E.
  - intros [c Hc]. exists c. now apply first_alias_Some.
Qed.

Hypothesis aliases_not_blank : ~ In "" aliases.

Lemma first_alias_truthy (columns : list string) (c : string) :
  first_alias aliases columns = Some c -> truthy (Some c) = true.
Proof.
  intros H. apply first_alias_Some in H. destruct H as [_ Hal].
  simpl. destruct (String.eqb_spec c ""); [| reflexivity].
  subst c. simpl in Hal. contradiction.
Qed.

End CandidateKeys.

Lemma id_pedido_not_blank : ~ In "" id_pedido_aliases.
Proof. simpl. intuition discriminate. Qed.

Lemma id_cliente_not_blank : ~ In "" id_cliente_aliases.
Proof. simpl. intuition discriminate. Qed.

Lemma dt_not_blank : ~ In "" dt_aliases.
Proof. simpl. intuition discriminate. Qed.

(** The mapping is built from the first match of each family and nothing
    else. *)
Lemma pick_candidate_keys_shape (columns : list string) :
  pick_candidate_keys columns =
    match first_alias id_pedido_aliases columns with
    | Some p => [("dup_order_id", [p])]
    | None => []
    end ++
    match first_alias id_cliente_aliases columns,
          first_alias dt_aliases columns with
    | Some c, Some d => [("dup_cliente_data", [c; d])]
    | _, _ => []
    end.
Proof.
  unfold pick_candidate_keys.
  destruct (first_alias id_pedido_aliases columns) as [p|] eqn:Ep;
    destruct (first_alias id_cliente_aliases columns) as [c|] eqn:Ec;
    destruct (first_alias dt_aliases columns) as [d|] eqn:Ed;
    try rewrite (first_alias_truthy _ id_pedido_not_blank _ _ Ep);
    try rewrite (first_alias_truthy _ id_cliente_not_blank _ _ Ec);
    try rewrite (first_alias_truthy _ dt_not_blank _ _ Ed);
    reflexivity.
Qed.

(** C3. [pick_candidate_keys] yields at most two keys, labelled
    [dup_order_id] and [dup_cliente_data] only.  The order-id key is there
    exactly when some column lowercases to an order-id alias, and is then
    the one-column list of the first such column.  The customer+date key is
    there exactly when some column lowercases to a customer-id alias and
    some column to a date alias, and is then the first customer-id column
    followed by the first date column.  With no alias of any family among
    the columns the mapping is empty. *)
Theorem pick_candidate_keys_alias_driven (columns : list string) :
  let keys := pick_candidate_keys columns in
  length keys <= 2
  /\ (forall k, In k (dict_keys keys) ->
        k = "dup_order_id" \/ k = "dup_cliente_data")
  /\ (has_alias id_pedido_aliases columns <->
        dict_get "dup_order_id" keys <> None)
  /\ (forall v, dict_get "dup_order_id" keys = Some v ->
        exists p, v = [p]
                  /\ first_alias id_pedido_aliases columns = Some p
                  /\ In p columns /\ In (lower p) id_pedido_aliases)
  /\ (has_alias id_cliente_aliases columns /\ has_alias dt_aliases columns <->
        dict_get "dup_cliente_data" keys <> None)
  /\ (forall v, dict_get "dup_cliente_data" keys = Some v ->
        exists c d, v = [c; d]
                    /\ first_alias id_cliente_aliases columns = Some c
                    /\ first_alias dt_aliases columns = Some d
                    /\ In c columns /\ In (lower c) id_cliente_aliases
                    /\ In d columns /\ In (lower d) dt_aliases)
  /\ (~ has_alias id_pedido_aliases columns ->
      ~ has_alias id_cliente_aliases columns ->
      ~ has_alias dt_aliases columns -> keys = []).
Proof.
  intros keys. subst keys. rewrite pick_candidate_keys_shape.
  rewrite !first_alias_has_alias.
  destruct (first_alias id_pedido_aliases columns) as [p|] eqn:Ep;
    destruct (first_alias id_cliente_aliases columns) as [c|] eqn:Ec;
    destruct (first_alias dt_aliases columns) as [d|] eqn:Ed;
    try (pose proof (first_alias_Some _ _ _ Ep) as [? ?]);
    try (pose proof (first_alias_Some _ _ _ Ec) as [? ?]);
    try (pose proof (first_alias_Some _ _ _ Ed) as [? ?]);
    simpl;
    repeat match goal with
           | |- _ /\ _ => split
           | |- _ <-> _ => split
           end;
    try lia;
    try (intros; discriminate);
    try (intros; congruence);
    try (intros k [<-|[<-|[]]]; auto; fail);
    try (intros k [<-|[]]; auto; fail);
    try (intros k []; fail);
    try (intros _; eauto; fail);
    try (intros [[? ?] [? ?]]; discriminate);
    try (intros [? ?]; discriminate);
    try (intros v Hv; inversion Hv; subst; eauto 12; fail);
    try (intros Hp; exfalso; apply Hp; eauto; fail);
    try (intros _ Hc; exfalso; apply Hc; eauto; fail);
    try (intros _ _ Hd; exfalso; apply Hd; eauto; fail);
    try reflexivity.
Qed.

(** ** [sorted] depends on the elements only *)

Lemma ascii_compare_lt_trans (a b c : ascii) :
  Ascii.compare a b = Lt -> Ascii.compare b c = Lt -> Ascii.compare a c = Lt.
Proof.
  unfold Ascii.compare. rewrite !N.compare_lt_iff. apply N.lt_trans.
Qed.

Lemma string_compare_lt_trans (s1 : string) :
  forall s2 s3,
    String.compare s1 s2 = Lt -> String.compare s2 s3 = Lt ->
    String.compare s1 s3 = Lt.
Proof.
  induction s1 as [|a s1 IH]; intros [|b s2] [|c s3]; simpl;
    try congruence.
  destruct (Ascii.compare a b) eqn:Eab; try discriminate;
    destruct (Ascii.compare b c) eqn:Ebc; try discriminate; intros H12 H23.
  - apply Ascii.compare_eq_iff in Eab, Ebc. subst.
    assert (Ecc : Ascii.compare c c = Eq)
      by (unfold Ascii.compare; apply N.compare_refl).
    rewrite Ecc. eauto.
  - apply Ascii.compare_eq_iff in Eab. subst. now rewrite Ebc.
  - apply Ascii.compare_eq_iff in Ebc. subst. now rewrite Eab.
  - now rewrite (ascii_compare_lt_trans _ _ _ Eab Ebc).
Qed.

Lemma string_compare_refl (s : string) : String.compare s s = Eq.
Proof.
  induction s as [|a s IH]; simpl; [reflexivity |].
  assert (E : Ascii.compare a a = Eq)
    by (unfold Ascii.compare; apply N.compare_refl).
  now rewrite E.
Qed.

Lemma leb_false_lt (x y : string) :
  String.leb x y = false -> String.compare y x = Lt.
Proof.
  unfold String.leb. rewrite String.compare_antisym.
  destruct (String.compare y x); simpl; congruence.
Qed.

Lemma leb_true_cases (x y : string) :
  String.leb x y = true -> x = y \/ String.compare x y = Lt.
Proof.
  unfold String.leb. destruct (String.compare x y) eqn:E; try discriminate.
  - left. now apply String.compare_eq_iff.
  - now right.
Qed.

Lemma lt_leb (x y : string) : String.compare x y = Lt -> String.leb x y = true.
Proof. unfold String.leb. now intros ->. Qed.

Lemma lt_not_leb (x y : string) :
  String.compare x y = Lt -> String.leb y x = false.
Proof.
  unfold String.leb. rewrite (String.compare_antisym x y).
  destruct (String.compare y x); simpl; congruence.
Qed.

Lemma leb_trans (x y z : string) :
  String.leb x y = true -> String.leb y z = true -> String.leb x z = true.
Proof.
  intros Hxy Hyz.
  destruct (leb_true_cases _ _ Hxy) as [->|Lxy]; [assumption |].
  destruct (leb_true_cases _ _ Hyz) as [<-|Lyz]; [assumption |].
  apply lt_leb. eapply string_compare_lt_trans; eassumption.
Qed.

Lemma insert_str_comm (x y : string) (l : list string) :
  insert_str x (insert_str y l) = insert_str y (insert_str x l).
Proof.
  induction l as [|z l IH]; simpl.
  - destruct (String.leb x y) eqn:Exy, (String.leb y x) eqn:Eyx;
      try reflexivity.
    + now rewrite (String.leb_antisym _ _ Exy Eyx).
    + destruct (String.leb_total x y); congruence.
  - destruct (String.leb y z) eqn:Eyz, (String.leb x z) eqn:Exz.
    + simpl. rewrite Eyz, Exz.
      destruct (String.leb x y) eqn:Exy, (String.leb y x) eqn:Eyx;
        try reflexivity.
      * now rewrite (String.leb_antisym _ _ Exy Eyx).
      * destruct (String.leb_total x y); congruence.
    + assert (Exy : String.leb x y = false).
      { destruct (String.leb x y) eqn:E; [| reflexivity].
        rewrite (leb_trans _ _ _ E Eyz) in Exz. discriminate. }
      simpl. now rewrite Exy, Exz, Eyz.
    + assert (Eyx : String.leb y x = false).
      { destruct (String.leb y x) eqn:E; [| reflexivity].
        rewrite (leb_trans _ _ _ E Exz) in Eyz. discriminate. }
      simpl. now rewrite Eyx, Eyz, Exz.
    + simpl. now rewrite Exz, Eyz, IH.
Qed.

Lemma sorted_Permutation_eq (l1 l2 : list string) :
  Permutation l1 l2 -> sorted l1 = sorted l2.
Proof.
  unfold sorted. induction 1; simpl.
  - reflexivity.
  - now f_equal.
  - apply insert_str_comm.
  - congruence.
Qed.

Lemma insert_str_Permutation (x : string) (l : list string) :
  Permutation (insert_str x l) (x :: l).
Proof.
  induction l as [|y l IH]; simpl; [reflexivity |].
  destruct (String.leb x y); [reflexivity |].
  rewrite IH. apply perm_swap.
Qed.

Lemma sorted_Permutation (l : list string) : Permutation (sorted l) l.
Proof.
  unfold sorted. induction l as [|x l IH]; simpl; [reflexivity |].
  rewrite insert_str_Permutation. now constructor.
Qed.

(** [sorted(a) == sorted(b)] tests equality as unordered collections. *)
Lemma sorted_eq_iff (l1 l2 : list string) :
  sorted l1 = sorted l2 <-> Permutation l1 l2.
Proof.
  split; [| apply sorted_Permutation_eq].
  intros E. rewrite <- (sorted_Permutation l1), <- (sorted_Permutation l2).
  now rewrite E.
Qed.

Lemma filter_none {A} (f : A -> bool) (l : list A) :
  (forall x, In x l -> f x = false) -> filter f l = [].
Proof.
  induction l as [|x l IH]; simpl; intros H; [reflexivity |].
  rewrite (H x (or_introl eq_refl)). apply IH. intros y Hy. apply H. now right.
Qed.

(** ** Schema comparison *)

Lemma schema_mismatch_order_only (fname : string) (cols ref_cols : list string) :
  Permutation cols ref_cols -> cols <> ref_cols ->
  schema_mismatch fname cols ref_cols = Some (order_only_record fname).
Proof.
  intros HP Hne. unfold schema_mismatch, order_only_record.
  apply list_eqb_neq in Hne. rewrite Hne. simpl.
  rewrite (sorted_Permutation_eq _ _ HP), list_eqb_refl.
  rewrite !filter_none; [reflexivity | |].
  - intros c Hc. apply negb_false_iff, mem_In.
    now apply (Permutation_in _ HP).
  - intros c Hc. apply negb_false_iff, mem_In.
    now apply (Permutation_in _ (Permutation_sym HP)).
Qed.

Lemma schema_mismatch_same (fname : string) (cols : list string) :
  schema_mismatch fname cols cols = None.
Proof. unfold schema_mismatch. now rewrite list_eqb_refl. Qed.

(** ** The loop over the files *)

Section Loop.

Variables (w : World) (sheet : option string).
Variables (ref_cols : list string) (key_candidates : dict (list string)).

(** Every file is visited; a file that loads adds its entry (and its
    mismatch record, if any), a file that does not adds its error. *)
Lemma loop_spec (files : list Path) :
  forall acc,
    fold_left (loop_body w sheet ref_cols key_candidates) files acc =
      mkAcc
        (results acc
           ++ map (file_entry w ref_cols key_candidates)
                  (loaded w sheet files))
        (schema_mismatches acc
           ++ flat_map (mismatch_of ref_cols) (loaded w sheet files))
        (read_errors acc ++ map read_error_entry (failed w sheet files)).
Proof.
  induction files as [|f files IH]; intros acc; simpl.
  - rewrite !app_nil_r. now destruct acc.
  - rewrite IH. unfold loop_body, loaded, failed. simpl.
    destruct (safe_read_excel w f sheet) as [e|df] eqn:E; simpl.
    + rewrite <- app_assoc. reflexivity.
    + unfold mismatch_of at 2. simpl.
      destruct (schema_mismatch (name f) (normalize_cols (columns df)) ref_cols);
        simpl; rewrite <- !app_assoc; reflexivity.
Qed.

Lemma loaded_files (files : list Path) :
  map fst (loaded w sheet files)
    = filter (fun f => negb (load_fails w sheet f)) files.
Proof.
  unfold loaded, load_fails.
  induction files as [|f files IH]; simpl; [reflexivity |].
  destruct (safe_read_excel w f sheet); simpl; now rewrite IH.
Qed.

Lemma failed_files (files : list Path) :
  map fst (failed w sheet files) = filter (load_fails w sheet) files.
Proof.
  unfold failed, load_fails.
  induction files as [|f files IH]; simpl; [reflexivity |].
  destruct (safe_read_excel w f sheet); simpl; now rewrite IH.
Qed.

Lemma loaded_failed_length (files : list Path) :
  length (loaded w sheet files) + length (failed w sheet files)
    = length files.
Proof.
  unfold loaded, failed.
  induction files as [|f files IH]; simpl; [reflexivity |].
  destruct (safe_read_excel w f sheet); simpl; lia.
Qed.

Lemma loaded_In (files : list Path) (f : Path) (df : DataFrame) :
  In (f, df) (loaded w sheet files) <->
  In f files /\ safe_read_excel w f sheet = inr df.
Proof.
  unfold loaded. rewrite in_flat_map. split.
  - intros [g [Hg Hin]]. destruct (safe_read_excel w g sheet) eqn:E;
      simpl in Hin; [contradiction |].
    destruct Hin as [Heq|[]]. inversion Heq; subst. now split.
  - intros [Hin E]. exists f. split; [assumption |]. rewrite E. now left.
Qed.

Lemma nonempty_failed (files : list Path) :
  nonempty (failed w sheet files) = existsb (load_fails w sheet) files.
Proof.
  unfold failed, load_fails.
  induction files as [|f files IH]; simpl; [reflexivity |].
  destruct (safe_read_excel w f sheet); simpl; [reflexivity | assumption].
Qed.

Lemma nonempty_mismatches (files : list Path) :
  nonempty (flat_map (mismatch_of ref_cols) (loaded w sheet files))
    = existsb (schema_differs w sheet ref_cols) files.
Proof.
  unfold loaded, schema_differs.
  induction files as [|f files IH]; simpl; [reflexivity |].
  destruct (safe_read_excel w f sheet) as [e|df]; simpl; [assumption |].
  unfold mismatch_of at 1, schema_mismatch. simpl.
  destruct (list_eqb (normalize_cols (columns df)) ref_cols); simpl;
    [assumption | reflexivity].
Qed.

End Loop.

Lemma nonempty_map {A B} (f : A -> B) (l : list A) :
  nonempty (map f l) = nonempty l.
Proof. now destruct l. Qed.

Lemma nonempty_app {A} (l1 l2 : list A) :
  nonempty (l1 ++ l2) = nonempty l1 || nonempty l2.
Proof. destruct l1; simpl; [reflexivity | reflexivity]. Qed.

Lemma nonempty_filter {A} (f : A -> bool) (l : list A) :
  nonempty (filter f l) = existsb f l.
Proof.
  induction l as [|x l IH]; simpl; [reflexivity |].
  destruct (f x); simpl; [reflexivity | assumption].
Qed.

(** ** The batch result *)

Section Batch.

Variables (w : World) (year : Z) (sheet : option string).
Variable strict_name_pattern : bool.
Variables (p : LakePaths) (ref_path : Path) (rest : list Path).
Variable ref_df : DataFrame.

Hypothesis paths_resolve : resolve_paths w = inr p.
Hypothesis files_found :
  find_xlsx_files w (bronze p) year = inr (ref_path :: rest).
Hypothesis reference_loads : safe_read_excel w ref_path sheet = inr ref_df.

Let files := ref_path :: rest.
Let ref_cols := normalize_cols (columns ref_df).
Let key_candidates := pick_candidate_keys ref_cols.
Let name_issues :=
  if strict_name_pattern then map name (filter (name_issue year) files)
  else [].
Let errors := map read_error_entry (failed w sheet files).
Let mismatches := flat_map (mismatch_of ref_cols) (loaded w sheet files).

(** The payload of a batch, with the loop unrolled over the files. *)
Lemma validate_year_batch :
  validate_year w year sheet strict_name_pattern =
    inr (VDict
      [("year", VInt year);
       ("status",
         VStr (if nonempty errors then "error"
               else if nonempty mismatches || nonempty name_issues
                    then "warning" else "ok"));
       ("base_dir",
         VStr (path_str w (resolve w (year_dir (bronze p) year))));
       ("reference_file", VStr (name ref_path));
       ("reference_columns", VList (map VStr ref_cols));
       ("strict_name_pattern", VBool strict_name_pattern);
       ("name_issues", VList (map VStr name_issues));
       ("schema_mismatches", VList mismatches);
       ("read_errors", VList errors);
       ("files",
         VList (map (file_entry w ref_cols key_candidates)
                    (loaded w sheet files)))]).
Proof.
  unfold validate_year.
  rewrite paths_resolve, files_found, reference_loads.
  rewrite loop_spec. reflexivity.
Qed.

End Batch.

(** C1. In a batch with at least one file and a reference that loads, the
    [status] of the result is [error] when some file failed to load;
    otherwise [warning] when some file's columns differ from the
    reference's or some name issue was recorded; otherwise [ok].  The three
    tests are those on the [read_errors], [schema_mismatches] and
    [name_issues] lists of the result. *)
Theorem status_by_priority
    (w : World) (year : Z) (sheet : option string) (strict_name_pattern : bool)
    (p : LakePaths) (ref_path : Path) (rest : list Path) (ref_df : DataFrame) :
  resolve_paths w = inr p ->
  find_xlsx_files w (bronze p) year = inr (ref_path :: rest) ->
  safe_read_excel w ref_path sheet = inr ref_df ->
  let files := ref_path :: rest in
  let ref_cols := normalize_cols (columns ref_df) in
  exists payload errors mismatches issues,
    validate_year w year sheet strict_name_pattern = inr (VDict payload)
    /\ dict_get "read_errors" payload = Some (VList errors)
    /\ dict_get "schema_mismatches" payload = Some (VList mismatches)
    /\ dict_get "name_issues" payload = Some (VList issues)
    /\ nonempty errors = existsb (load_fails w sheet) files
    /\ nonempty mismatches = existsb (schema_differs w sheet ref_cols) files
    /\ nonempty issues
         = strict_name_pattern && existsb (name_issue year) files
    /\ dict_get "status" payload =
         Some (VStr
           (if existsb (load_fails w sheet) files then "error"
            else if existsb (schema_differs w sheet ref_cols) files
                    || (strict_name_pattern
                        && existsb (name_issue year) files)
                 then "warning"
                 else "ok")).
Proof.
  intros Hp Hf Hr files ref_cols.
  rewrite (validate_year_batch _ _ _ strict_name_pattern _ _ _ _ Hp Hf Hr).
  fold files. fold ref_cols.
  assert (Hissues :
    nonempty (map VStr (if strict_name_pattern
                        then map name (filter (name_issue year) files)
                        else []))
      = strict_name_pattern && existsb (name_issue year) files).
  { destruct strict_name_pattern; simpl; [| reflexivity].
    change (nonempty (map VStr (map name (filter (name_issue year) files)))
            = existsb (name_issue year) files).
    now rewrite !nonempty_map, nonempty_filter. }
  eexists _, _, _, _. split; [reflexivity |].
  repeat split.
  - now rewrite nonempty_map, nonempty_failed.
  - apply nonempty_mismatches.
  - exact Hissues.
  - cbn [dict_get String.eqb Ascii.eqb Bool.eqb].
    rewrite nonempty_map, nonempty_failed, nonempty_mismatches.
    rewrite nonempty_map in Hissues. now rewrite Hissues.
Qed.

(** C2. In a batch of N >= 1 files with a reference that loads, every file
    is visited and lands in exactly one of two lists: [files] holds, in
    discovery order, one entry per file that loads, [read_errors] holds one
    record (file name and error description) per file that does not, and
    the two lengths add up to N. *)
Theorem every_file_lands_once
    (w : World) (year : Z) (sheet : option string) (strict_name_pattern : bool)
    (p : LakePaths) (ref_path : Path) (rest : list Path) (ref_df : DataFrame) :
  resolve_paths w = inr p ->
  find_xlsx_files w (bronze p) year = inr (ref_path :: rest) ->
  safe_read_excel w ref_path sheet = inr ref_df ->
  let files := ref_path :: rest in
  let ref_cols := normalize_cols (columns ref_df) in
  let key_candidates := pick_candidate_keys ref_cols in
  exists payload entries errors,
    validate_year w year sheet strict_name_pattern = inr (VDict payload)
    /\ dict_get "files" payload = Some (VList entries)
    /\ dict_get "read_errors" payload = Some (VList errors)
    /\ entries = map (file_entry w ref_cols key_candidates)
                     (loaded w sheet files)
    /\ errors = map read_error_entry (failed w sheet files)
    /\ map fst (loaded w sheet files)
         = filter (fun f => negb (load_fails w sheet f)) files
    /\ map fst (failed w sheet files) = filter (load_fails w sheet) files
    /\ length entries
         = length (filter (fun f => negb (load_fails w sheet f)) files)
    /\ length errors = length (filter (load_fails w sheet) files)
    /\ length entries + length errors = length files.
Proof.
  intros Hp Hf Hr files ref_cols key_candidates.
  rewrite (validate_year_batch _ _ _ strict_name_pattern _ _ _ _ Hp Hf Hr).
  fold files. fold ref_cols. fold key_candidates.
  eexists _, _, _. split; [reflexivity |].
  split; [reflexivity |]. split; [reflexivity |].
  split; [reflexivity |]. split; [reflexivity |].
  split; [apply loaded_files |]. split; [apply failed_files |].
  rewrite !length_map.
  rewrite <- (loaded_files w sheet files), <- (failed_files w sheet files).
  rewrite !length_map.
  repeat split. apply loaded_failed_length.
Qed.

(** C8. When discovery returns no file, [validate_year] returns exactly the
    year, the status [no_files] and a message ending in the directory that
    was searched; the result has no [files] and no [schema_mismatches] key,
    and nothing is loaded: the result is the same whatever the loader would
    have answered. *)
Theorem no_files_short_circuit
    (w : World) (year : Z) (sheet : option string) (strict_name_pattern : bool)
    (p : LakePaths) :
  resolve_paths w = inr p ->
  find_xlsx_files w (bronze p) year = inr [] ->
  exists payload,
    validate_year w year sheet strict_name_pattern = inr (VDict payload)
    /\ payload =
         [("year", VInt year);
          ("status", VStr "no_files");
          ("message",
            VStr ("Nenhum .xlsx encontrado em "
                    ++ path_str w (year_dir (bronze p) year)))]
    /\ dict_keys payload = ["year"; "status"; "message"]
    /\ dict_get "files" payload = None
    /\ dict_get "schema_mismatches" payload = None
    /\ forall r,
         validate_year (with_read_excel w r) year sheet strict_name_pattern
           = inr (VDict payload).
Proof.
  intros Hp Hf. eexists. split.
  - unfold validate_year. rewrite Hp, Hf. reflexivity.
  - repeat split. intros r. unfold validate_year.
    change (resolve_paths (with_read_excel w r)) with (resolve_paths w).
    rewrite Hp.
    change (find_xlsx_files (with_read_excel w r) (bronze p) year)
      with (find_xlsx_files w (bronze p) year).
    rewrite Hf. reflexivity.
Qed.

(** X22. With strict naming on, [name_issues] lists the names of the
    discovered files that fail the test of line 140 (stem starting with
    the year and a dash, seven characters long), and the test changes
    nothing else:
    [files], [schema_mismatches] and [read_errors] are those of the run with
    strict naming off, and a flagged file that loads has its entry in
    [files], with its profile, its duplicate counts and its schema
    comparison. *)
Theorem name_issues_do_not_gate_processing
    (w : World) (year : Z) (sheet : option string)
    (p : LakePaths) (ref_path : Path) (rest : list Path) (ref_df : DataFrame) :
  resolve_paths w = inr p ->
  find_xlsx_files w (bronze p) year = inr (ref_path :: rest) ->
  safe_read_excel w ref_path sheet = inr ref_df ->
  let files := ref_path :: rest in
  let ref_cols := normalize_cols (columns ref_df) in
  let key_candidates := pick_candidate_keys ref_cols in
  exists strict lax entries,
    validate_year w year sheet true = inr (VDict strict)
    /\ validate_year w year sheet false = inr (VDict lax)
    /\ dict_get "name_issues" strict
         = Some (VList (map VStr (map name (filter (name_issue year) files))))
    /\ dict_get "files" strict = Some (VList entries)
    /\ dict_get "files" lax = Some (VList entries)
    /\ dict_get "schema_mismatches" strict = dict_get "schema_mismatches" lax
    /\ dict_get "read_errors" strict = dict_get "read_errors" lax
    /\ forall f df,
         In f files -> name_issue year f = true ->
         safe_read_excel w f sheet = inr df ->
         exists entry,
           In entry entries
           /\ entry = file_result w f df ref_cols key_candidates
           /\ value_get "file" entry = Some (VStr (name f))
           /\ value_get "profile" entry = Some (basic_profile df)
           /\ value_get "duplicates" entry
                = Some (VInts (dup_info df key_candidates))
           /\ value_get "schema_matches_reference" entry
                = Some (VBool (list_eqb (normalize_cols (columns df))
                                        ref_cols)).
Proof.
  intros Hp Hf Hr files ref_cols key_candidates.
  rewrite (validate_year_batch _ _ _ true _ _ _ _ Hp Hf Hr).
  rewrite (validate_year_batch _ _ _ false _ _ _ _ Hp Hf Hr).
  fold files. fold ref_cols. fold key_candidates.
  eexists _, _, _. do 7 (split; [reflexivity |]).
  intros f df Hin _ Hload.
  exists (file_result w f df ref_cols key_candidates).
  split; [| repeat split].
  apply in_map_iff. exists (f, df). split; [reflexivity |].
  now apply loaded_In.
Qed.

(** C6. A file that loads with the reference's columns in another order
    (the same columns as unordered collections, a different sequence) adds
    to [schema_mismatches] one record for it with [order_diff_only] true and
    both [missing_cols] and [extra_cols] empty. *)
Theorem reordered_columns_flagged_order_only
    (w : World) (sheet : option string) (ref_cols : list string)
    (key_candidates : dict (list string)) (acc : Acc)
    (f : Path) (df : DataFrame) :
  safe_read_excel w f sheet = inr df ->
  Permutation (normalize_cols (columns df)) ref_cols ->
  normalize_cols (columns df) <> ref_cols ->
  schema_mismatch (name f) (normalize_cols (columns df)) ref_cols
    = Some (VDict [("file", VStr (name f));
                   ("missing_cols", VList []);
                   ("extra_cols", VList []);
                   ("order_diff_only", VBool true)])
  /\ schema_mismatches (loop_body w sheet ref_cols key_candidates acc f)
       = schema_mismatches acc
           ++ [VDict [("file", VStr (name f));
                      ("missing_cols", VList []);
                      ("extra_cols", VList []);
                      ("order_diff_only", VBool true)]].
Proof.
  intros Hload HP Hne.
  pose proof (schema_mismatch_order_only (name f) _ _ HP Hne) as Hm.
  split; [exact Hm |].
  unfold loop_body. rewrite Hload. simpl. now rewrite Hm.
Qed.

(** C7, as the code has it.  A file whose normalized columns are the
    reference's, the reference itself included, produces no mismatch
    record at all: nothing is added to [schema_mismatches], and its entry
    says [schema_matches_reference] is true.  The three quantities of a
    record, evaluated on equal column lists, would be empty, empty and
    false. *)
Theorem same_columns_no_mismatch_record
    (w : World) (sheet : option string) (ref_cols : list string)
    (key_candidates : dict (list string)) (acc : Acc)
    (f : Path) (df : DataFrame) :
  safe_read_excel w f sheet = inr df ->
  normalize_cols (columns df) = ref_cols ->
  schema_mismatch (name f) (normalize_cols (columns df)) ref_cols = None
  /\ schema_mismatches (loop_body w sheet ref_cols key_candidates acc f)
       = schema_mismatches acc
  /\ value_get "schema_matches_reference"
       (file_result w f df ref_cols key_candidates) = Some (VBool true)
  /\ filter (fun c => negb (mem c (normalize_cols (columns df)))) ref_cols = []
  /\ filter (fun c => negb (mem c ref_cols)) (normalize_cols (columns df)) = []
  /\ list_eqb (sorted (normalize_cols (columns df))) (sorted ref_cols)
     && negb (list_eqb (normalize_cols (columns df)) ref_cols) = false.
Proof.
  intros Hload <-.
  split; [apply schema_mismatch_same |].
  split.
  { unfold loop_body. rewrite Hload. simpl.
    now rewrite schema_mismatch_same. }
  split.
  { simpl. now rewrite list_eqb_refl. }
  assert (Hall : forall c, In c (normalize_cols (columns df)) ->
                           negb (mem c (normalize_cols (columns df))) = false).
  { intros c Hc. now apply negb_false_iff, mem_In. }
  rewrite !(filter_none _ _ Hall), !list_eqb_refl. auto.
Qed.

(** ** Duplicate counting *)

Lemma nth_tl {A} (j : nat) (r : list A) (d : A) :
  nth j (tl r) d = nth (S j) r d.
Proof. destruct r; [now destruct j | reflexivity]. Qed.

Lemma hd_nth {A} (r : list A) (d : A) : hd d r = nth 0 r d.
Proof. now destruct r. Qed.

(** Two rows have the same values under [subset] exactly when they hold
    the same cell in every column labelled in [subset]. *)
Lemma subset_values_eq_iff (subset cols : list string) :
  forall r1 r2,
    Pandas.subset_values subset cols r1 = Pandas.subset_values subset cols r2
    <-> (forall j, j < length cols -> mem (nth j cols "") subset = true ->
                   nth j r1 NaN = nth j r2 NaN).
Proof.
  induction cols as [|c cs IH]; intros r1 r2; simpl.
  - split; [intros _ j Hj; lia | reflexivity].
  - destruct (mem c subset) eqn:Ec.
    + split.
      * intros H. inversion H as [[Hh Ht]].
        pose proof (proj1 (IH _ _) Ht) as Ht'.
        intros [|j] Hj Hm.
        -- now rewrite <- !hd_nth.
        -- rewrite <- !nth_tl. apply Ht'; [lia | assumption].
      * intros H. f_equal.
        -- rewrite !hd_nth. apply (H 0); [lia | assumption].
        -- apply IH. intros j Hj Hm. rewrite !nth_tl.
           apply (H (S j)); [lia | assumption].
    + rewrite IH. split.
      * intros H [|j] Hj Hm; [congruence |].
        rewrite <- !nth_tl. apply H; [lia | assumption].
      * intros H j Hj Hm. rewrite !nth_tl. apply (H (S j)); [lia | assumption].
Qed.

Lemma agree_on_iff (df : DataFrame) (kcols : list string) (r1 r2 : list cell) :
  agree_on df kcols r1 r2 = true
  <-> Pandas.subset_values kcols (columns df) r1
      = Pandas.subset_values kcols (columns df) r2.
Proof.
  rewrite subset_values_eq_iff. unfold agree_on. rewrite forallb_forall.
  split.
  - intros H j Hj Hm. specialize (H j). rewrite in_seq in H.
    specialize (H ltac:(lia)). rewrite Hm in H. simpl in H.
    now destruct (cell_eq_dec (nth j r1 NaN) (nth j r2 NaN)).
  - intros H j Hj. apply in_seq in Hj.
    destruct (mem (nth j (columns df) "") kcols) eqn:Em; [simpl | reflexivity].
    destruct (cell_eq_dec (nth j r1 NaN) (nth j r2 NaN)) as [|Hne];
      [reflexivity |].
    exfalso. apply Hne. apply H; [lia | assumption].
Qed.

Lemma length_filter_map {A B} (f : B -> bool) (g : A -> B) (l : list A) :
  length (filter f (map g l)) = length (filter (fun x => f (g x)) l).
Proof.
  induction l as [|x l IH]; simpl; [reflexivity |].
  destruct (f (g x)); simpl; now rewrite IH.
Qed.

Lemma existsb_map_comp {A B} (f : B -> bool) (g : A -> B) (l : list A) :
  existsb f (map g l) = existsb (fun x => f (g x)) l.
Proof.
  induction l as [|x l IH]; simpl; [reflexivity | now rewrite IH].
Qed.

Section Scan.

(** [key] is what the scan compares, [same] the agreement of two rows. *)
Variable key : list cell -> list cell.
Variable same : list cell -> list cell -> bool.
Hypothesis same_key : forall a b, same a b = true <-> key a = key b.

Lemma seen_before (pre : list (list cell)) (r : list cell) :
  (if in_dec row_eq_dec (key r) (map key pre) then true else false)
    = existsb (fun r' => same r' r) pre.
Proof.
  destruct (in_dec row_eq_dec (key r) (map key pre)) as [Hin|Hnin].
  - symmetry. apply existsb_exists. apply in_map_iff in Hin.
    destruct Hin as [r' [Hk Hin]]. exists r'. split; [assumption |].
    now apply same_key.
  - symmetry. apply not_true_is_false. intros H.
    apply existsb_exists in H. destruct H as [r' [Hin Hs]].
    apply Hnin. apply in_map_iff. exists r'. split; [| assumption].
    now apply same_key.
Qed.

(** The scan marks row [i] exactly when a row met before agrees with
    it: one of [pre], or an earlier row of the table. *)
Lemma duplicated_first_pointwise (rs : list (list cell)) :
  forall pre,
    Pandas.duplicated_first (map key pre) (map key rs)
      = map (fun i => existsb (fun r' => same r' (nth i rs [])) pre
                      || repeats_earlier same rs i)
            (seq 0 (length rs)).
Proof.
  induction rs as [|r rs IH]; intros pre; [reflexivity |].
  cbn [map Pandas.duplicated_first length seq].
  f_equal.
  - rewrite seen_before. unfold repeats_earlier. simpl.
    now rewrite orb_false_r.
  - change (key r :: map key pre) with (map key (r :: pre)).
    rewrite IH, <- seq_shift, map_map. apply map_ext. intros i.
    unfold repeats_earlier.
    cbn [seq]. rewrite <- (seq_shift i 0).
    cbn [existsb nth]. rewrite existsb_map_comp. cbn [nth].
    destruct (same r (nth i rs [])); simpl;
      [now rewrite orb_true_r | reflexivity].
Qed.

Lemma duplicated_first_count (rs : list (list cell)) :
  Pandas.sum (Pandas.duplicated_first [] (map key rs))
    = count_repeated_rows same rs.
Proof.
  change (@nil (list cell)) with (map key []).
  rewrite duplicated_first_pointwise. unfold Pandas.sum, count_repeated_rows.
  rewrite length_filter_map. reflexivity.
Qed.

End Scan.

Lemma count_repeated_rows_nil (same : list cell -> list cell -> bool) :
  count_repeated_rows same [] = 0.
Proof. reflexivity. Qed.

(** [df.duplicated(subset).sum()] counts the rows that repeat an earlier
    row on the columns compared, on a table that has columns whenever it
    has rows. *)
Lemma duplicated_sum_count (df : DataFrame) (subset : option (list string)) :
  (columns df = [] -> rows df = []) ->
  Pandas.sum (Pandas.duplicated df subset)
    = count_repeated_rows
        (agree_on df (match subset with None => columns df | Some s => s end))
        (rows df).
Proof.
  intros Hwf. unfold Pandas.duplicated, Pandas.empty.
  destruct (rows df) as [|r rs] eqn:Er; [reflexivity |].
  destruct (columns df) as [|c cs] eqn:Ec; [now specialize (Hwf eq_refl) |].
  cbn [length Nat.eqb orb].
  rewrite <- Ec.
  apply duplicated_first_count. intros a b. apply agree_on_iff.
Qed.

(** A row that repeats an earlier one under a finer key repeats it under
    a coarser one. *)
Lemma duplicated_first_mono (f g : list cell -> list cell) :
  (forall a b, f a = f b -> g a = g b) ->
  forall rs pre,
    Pandas.sum (Pandas.duplicated_first (map f pre) (map f rs))
    <= Pandas.sum (Pandas.duplicated_first (map g pre) (map g rs)).
Proof.
  intros Hfg. induction rs as [|r rs IH]; intros pre; [simpl; lia |].
  cbn [map Pandas.duplicated_first].
  specialize (IH (r :: pre)). cbn [map] in IH.
  unfold Pandas.sum in *. cbn [filter].
  destruct (in_dec row_eq_dec (f r) (map f pre)) as [Hin|Hnin].
  - destruct (in_dec row_eq_dec (g r) (map g pre)) as [|Hgn].
    + cbn [length]. lia.
    + exfalso. apply Hgn. apply in_map_iff in Hin.
      destruct Hin as [r' [Hk Hin]]. apply in_map_iff. exists r'.
      split; [now apply Hfg | assumption].
  - destruct (in_dec row_eq_dec (g r) (map g pre)); cbn [length]; lia.
Qed.

Lemma duplicated_full_le_subset (df : DataFrame) (kcols : list string) :
  Pandas.sum (Pandas.duplicated df None)
  <= Pandas.sum (Pandas.duplicated df (Some kcols)).
Proof.
  unfold Pandas.duplicated. destruct (Pandas.empty df); [simpl; lia |].
  apply (duplicated_first_mono _ _) with (pre := []).
  intros a b. rewrite !subset_values_eq_iff. intros H j Hj _.
  apply H; [assumption |]. apply mem_In. now apply nth_In.
Qed.

(** ** The duplicates mapping of a file *)

Section DupInfo.

Variables (df : DataFrame) (ref_cols : list string).

Let key_candidates := pick_candidate_keys ref_cols.

Lemma dup_info_full_row :
  dict_get "dup_full_row_count" (dup_info df key_candidates)
    = Some (Z.of_nat (Pandas.sum (Pandas.duplicated df None))).
Proof.
  unfold key_candidates. rewrite pick_candidate_keys_shape.
  unfold dup_info.
  destruct (first_alias id_pedido_aliases ref_cols) as [p|];
    destruct (first_alias id_cliente_aliases ref_cols) as [c|];
    destruct (first_alias dt_aliases ref_cols) as [d|];
    cbn [app fold_left];
    repeat match goal with
           | |- context [forallb ?f ?l] => destruct (forallb f l)
           end;
    reflexivity.
Qed.

(** A candidate key has its entry exactly when each of its columns is a
    header label of the table as loaded, and the entry is then the count
    of [duplicated] on those columns. *)
Lemma dup_info_key (kname : string) (kcols : list string) :
  dict_get kname key_candidates = Some kcols ->
  dict_get kname (dup_info df key_candidates)
    = if forallb (fun c => mem c (columns df)) kcols
      then Some (Z.of_nat (Pandas.sum (Pandas.duplicated df (Some kcols))))
      else None.
Proof.
  unfold key_candidates. rewrite pick_candidate_keys_shape.
  unfold dup_info.
  destruct (first_alias id_pedido_aliases ref_cols) as [p|];
    destruct (first_alias id_cliente_aliases ref_cols) as [c|];
    destruct (first_alias dt_aliases ref_cols) as [d|];
    cbn [app fold_left dict_get];
    intros Hk;
    repeat match type of Hk with
           | context [String.eqb kname ?s] =>
               destruct (String.eqb_spec kname s); [subst kname |]
           end;
    try discriminate;
    inversion Hk; subst kcols;
    repeat match goal with
           | |- context [forallb ?f ?l] => destruct (forallb f l)
           end;
    reflexivity.
Qed.

Lemma candidate_key_nonempty (kname : string) (kcols : list string) :
  dict_get kname key_candidates = Some kcols -> kcols <> [].
Proof.
  unfold key_candidates. rewrite pick_candidate_keys_shape.
  destruct (first_alias id_pedido_aliases ref_cols) as [p|];
    destruct (first_alias id_cliente_aliases ref_cols) as [c|];
    destruct (first_alias dt_aliases ref_cols) as [d|];
    cbn [app dict_get];
    intros Hk;
    repeat match type of Hk with
           | context [String.eqb kname ?s] =>
               destruct (String.eqb_spec kname s)
           end;
    try discriminate; inversion Hk; discriminate.
Qed.

End DupInfo.

(** C4. In the duplicates mapping of a loaded file, the full-row count is
    the number of rows that hold, in every column, the same values as some
    earlier row of the file, and the count of each candidate key that has
    an entry is the number of rows that hold, in the key's columns, the
    same values as some earlier row.  A row is counted when a row before it
    agrees with it, so a first occurrence is not counted and every later
    one is. *)
Theorem duplicate_counts_are_repeats
    (w : World) (f : Path) (df : DataFrame) (ref_cols : list string) :
  (columns df = [] -> rows df = []) ->
  let key_candidates := pick_candidate_keys ref_cols in
  let duplicates := dup_info df key_candidates in
  value_get "duplicates" (file_result w f df ref_cols key_candidates)
    = Some (VInts duplicates)
  /\ dict_get "dup_full_row_count" duplicates
       = Some (Z.of_nat (count_repeated_rows (agree_on df (columns df))
                                             (rows df)))
  /\ (forall kname kcols n,
        dict_get kname key_candidates = Some kcols ->
        dict_get kname duplicates = Some n ->
        n = Z.of_nat (count_repeated_rows (agree_on df kcols) (rows df)))
  /\ Pandas.duplicated df None
       = (if Pandas.empty df then []
          else map (repeats_earlier (agree_on df (columns df)) (rows df))
                   (seq 0 (length (rows df)))).
Proof.
  intros Hwf key_candidates duplicates.
  split; [reflexivity |]. split; [| split].
  - unfold duplicates, key_candidates.
    now rewrite dup_info_full_row, (duplicated_sum_count df None Hwf).
  - intros kname kcols n Hk Hn. unfold duplicates, key_candidates in Hn.
    rewrite (dup_info_key df ref_cols kname kcols Hk) in Hn.
    destruct (forallb (fun c => mem c (columns df)) kcols); [| discriminate].
    inversion Hn. now rewrite (duplicated_sum_count df (Some kcols) Hwf).
  - unfold Pandas.duplicated. destruct (Pandas.empty df); [reflexivity |].
    change (@nil (list cell)) with (map (Pandas.subset_values (columns df) (columns df)) []).
    rewrite (duplicated_first_pointwise _ (agree_on df (columns df))).
    + apply map_ext. intros i. reflexivity.
    + intros a b. apply agree_on_iff.
Qed.

(** C10. In the duplicates mapping of a loaded file the full-row count is
    at most the count of any candidate key that has an entry. *)
Theorem full_row_count_at_most_key_count
    (df : DataFrame) (ref_cols : list string)
    (kname : string) (kcols : list string) (full n : Z) :
  dict_get kname (pick_candidate_keys ref_cols) = Some kcols ->
  dict_get kname (dup_info df (pick_candidate_keys ref_cols)) = Some n ->
  dict_get "dup_full_row_count" (dup_info df (pick_candidate_keys ref_cols))
    = Some full ->
  (full <= n)%Z.
Proof.
  intros Hk Hn Hfull.
  rewrite dup_info_full_row in Hfull.
  rewrite (dup_info_key df ref_cols kname kcols Hk) in Hn.
  destruct (forallb (fun c => mem c (columns df)) kcols); [| discriminate].
  inversion Hn. inversion Hfull.
  apply Nat2Z.inj_le. apply duplicated_full_le_subset.
Qed.

(** The key entries of the duplicates mapping follow the header labels as
    loaded, not the normalized ones. *)
Lemma key_entry_iff_raw_labels
    (df : DataFrame) (ref_cols : list string)
    (kname : string) (kcols : list string) :
  dict_get kname (pick_candidate_keys ref_cols) = Some kcols ->
  (dict_get kname (dup_info df (pick_candidate_keys ref_cols)) <> None
   <-> forall c, In c kcols -> In c (columns df)).
Proof.
  intros Hk. rewrite (dup_info_key df ref_cols kname kcols Hk).
  destruct (forallb (fun c => mem c (columns df)) kcols) eqn:E.
  - split; [| discriminate]. intros _ c Hc.
    rewrite forallb_forall in E. now apply mem_In, E.
  - split; [congruence |]. intros H. exfalso.
    assert (forallb (fun c => mem c (columns df)) kcols = true); [| congruence].
    apply forallb_forall. intros c Hc. now apply mem_In, H.
Qed.

(** C5, on a sheet whose header is padded.  The only file of 2022 has the
    header [order_id ] (one trailing blank) over two equal rows.  Its
    normalized column is [order_id], the reference columns are
    [[order_id]], the order-id key is inferred from them and the file is
    reported to match the reference; yet its duplicates mapping has the
    full-row count alone: the key is looked up among the labels as loaded,
    where [order_id] is not found. *)
Theorem padded_header_loses_key_entry :
  exists payload entry,
    validate_year Lake.world 2022 None false = inr (VDict payload)
    /\ dict_get "reference_columns" payload = Some (VList [VStr "order_id"])
    /\ pick_candidate_keys ["order_id"] = [("dup_order_id", ["order_id"])]
    /\ normalize_cols (columns Lake.padded) = ["order_id"]
    /\ dict_get "files" payload = Some (VList [entry])
    /\ value_get "schema_matches_reference" entry = Some (VBool true)
    /\ value_get "duplicates" entry
         = Some (VDict [("dup_full_row_count", VInt 1)])
    /\ count_repeated_rows (agree_on Lake.padded ["order_id "])
                           (rows Lake.padded) = 1.
Proof.
  eexists _, _. split; [vm_compute; reflexivity |].
  repeat split.
Qed.

(** C7 as stated does not hold: for the reference compared with itself no
    record with empty lists and [order_diff_only] false is produced; the
    batch of 2021, whose two files both have the reference's columns, has
    an empty [schema_mismatches]. *)
Lemma reference_against_itself_yields_no_record :
  schema_mismatch (name Lake.jan_2021)
                  (normalize_cols (columns Lake.jan))
                  (normalize_cols (columns Lake.jan))
    <> Some (VDict [("file", VStr (name Lake.jan_2021));
                    ("missing_cols", VList []);
                    ("extra_cols", VList []);
                    ("order_diff_only", VBool false)])
  /\ exists payload,
       validate_year Lake.world 2021 None false = inr (VDict payload)
       /\ dict_get "reference_file" payload = Some (VStr "2021-01.xlsx")
       /\ dict_get "schema_mismatches" payload = Some (VList []).
Proof.
  split.
  - rewrite schema_mismatch_same. discriminate.
  - eexists. split; [vm_compute; reflexivity |]. split; reflexivity.
Qed.

(** ** The properties at work on the example lake *)

Lemma status_by_priority_witness :
  exists payload,
    validate_year Lake.world 2023 None true = inr (VDict payload)
    /\ dict_get "status" payload = Some (VStr "error").
Proof.
  destruct (status_by_priority Lake.world 2023 None true Lake.paths
              Lake.jan_2023 Lake.rest_2023 Lake.jan
              eq_refl eq_refl eq_refl)
    as (payload & errors & mismatches & issues & Hv & _ & _ & _ & _ & _ & _ & Hs).
  exists payload. split; [exact Hv | exact Hs].
Defined.

Lemma every_file_lands_once_witness :
  exists payload entries errors,
    validate_year Lake.world 2023 None true = inr (VDict payload)
    /\ dict_get "files" payload = Some (VList entries)
    /\ dict_get "read_errors" payload = Some (VList errors)
    /\ length entries = 3 /\ length errors = 1.
Proof.
  destruct (every_file_lands_once Lake.world 2023 None true Lake.paths
              Lake.jan_2023 Lake.rest_2023 Lake.jan
              eq_refl eq_refl eq_refl)
    as (payload & entries & errors & Hv & Hf & He & _ & _ & _ & _
        & Hn & Hm & _).
  exists payload, entries, errors.
  split; [exact Hv |]. split; [exact Hf |]. split; [exact He |].
  split; [exact Hn | exact Hm].
Defined.

Lemma duplicate_counts_are_repeats_witness :
  dict_get "dup_full_row_count"
           (dup_info Lake.feb (pick_candidate_keys Lake.sales_cols))
    = Some 1%Z.
Proof.
  assert (Hwf : columns Lake.feb = [] -> rows Lake.feb = [])
    by (simpl; discriminate).
  destruct (duplicate_counts_are_repeats Lake.world Lake.feb_2021 Lake.feb
              Lake.sales_cols Hwf) as (_ & Hfull & _).
  exact Hfull.
Defined.

Lemma full_row_count_at_most_key_count_witness : (1 <= 2)%Z.
Proof.
  apply (full_row_count_at_most_key_count Lake.feb Lake.sales_cols
           "dup_order_id" ["order_id"] 1 2); reflexivity.
Defined.

Lemma reordered_columns_flagged_order_only_witness :
  schema_mismatches
    (loop_body Lake.world None Lake.sales_cols
               (pick_candidate_keys Lake.sales_cols) (mkAcc [] [] [])
               Lake.mar_2023)
    = [VDict [("file", VStr "2023-03.xlsx");
              ("missing_cols", VList []);
              ("extra_cols", VList []);
              ("order_diff_only", VBool true)]].
Proof.
  assert (HP : Permutation (normalize_cols (columns Lake.mar)) Lake.sales_cols).
  { apply sorted_eq_iff. reflexivity. }
  assert (Hne : normalize_cols (columns Lake.mar) <> Lake.sales_cols)
    by (simpl; discriminate).
  exact (proj2 (reordered_columns_flagged_order_only Lake.world None
                  Lake.sales_cols (pick_candidate_keys Lake.sales_cols)
                  (mkAcc [] [] []) Lake.mar_2023 Lake.mar eq_refl HP Hne)).
Defined.

Lemma same_columns_no_mismatch_record_witness :
  schema_mismatches
    (loop_body Lake.world None Lake.sales_cols
               (pick_candidate_keys Lake.sales_cols) (mkAcc [] [] [])
               Lake.jan_2023)
    = [].
Proof.
  exact (proj1 (proj2 (same_columns_no_mismatch_record Lake.world None
                         Lake.sales_cols (pick_candidate_keys Lake.sales_cols)
                         (mkAcc [] [] []) Lake.jan_2023 Lake.jan
                         eq_refl eq_refl))).
Defined.

Lemma no_files_short_circuit_witness :
  exists payload,
    validate_year Lake.world 2020 None true = inr (VDict payload)
    /\ dict_keys payload = ["year"; "status"; "message"]
    /\ dict_get "status" payload = Some (VStr "no_files").
Proof.
  destruct (no_files_short_circuit Lake.world 2020 None true Lake.paths
              eq_refl eq_refl)
    as (payload & Hv & Hp & Hk & _).
  exists payload. split; [exact Hv |]. split; [exact Hk |].
  rewrite Hp. reflexivity.
Defined.

Lemma name_issues_do_not_gate_processing_witness :
  exists strict entries,
    validate_year Lake.world 2021 None true = inr (VDict strict)
    /\ dict_get "name_issues" strict = Some (VList [VStr "fevereiro.xlsx"])
    /\ dict_get "files" strict = Some (VList entries)
    /\ In (file_result Lake.world Lake.feb_2021 Lake.feb Lake.sales_cols
                       (pick_candidate_keys Lake.sales_cols)) entries.
Proof.
  destruct (name_issues_do_not_gate_processing Lake.world 2021 None Lake.paths
              Lake.jan_2021 [Lake.feb_2021] Lake.jan
              eq_refl eq_refl eq_refl)
    as (strict & lax & entries & Hs & _ & Hi & Hf & _ & _ & _ & Hin).
  exists strict, entries.
  split; [exact Hs |]. split; [exact Hi |]. split; [exact Hf |].
  destruct (Hin Lake.feb_2021 Lake.feb
              (or_intror (or_introl eq_refl)) eq_refl eq_refl)
    as (entry & Hentry & Heq & _).
  rewrite Heq in Hentry. exact Hentry.
Defined.

(** * Further properties of the code *)

(** ** Configuration and fatal errors *)

Lemma env_set (w : World) (nm v : string) (default : option string) :
  getenv w nm = Some v -> v <> "" -> _env w nm default = v.
Proof.
  intros H Hv. unfold _env. rewrite H.
  destruct (String.eqb_spec v ""); [contradiction | reflexivity].
Qed.

Lemma env_unset (w : World) (nm : string) (default : option string) :
  getenv w nm = None \/ getenv w nm = Some "" ->
  _env w nm default = match default with Some d => d | None => "" end.
Proof. intros [H|H]; unfold _env; rewrite H; reflexivity. Qed.

Lemma env_cases (w : World) (nm : string) :
  (exists v, getenv w nm = Some v /\ v <> "")
  \/ (getenv w nm = None \/ getenv w nm = Some "").
Proof.
  destruct (getenv w nm) as [v|] eqn:E; [| now right; left].
  destruct (String.eqb_spec v ""); [subst; now right; right |].
  left. now exists v.
Qed.

(** X1. [resolve_paths] fails in two cases and in no other.  When
    [TOT_DATALAKE_ROOT] is unset or empty it raises the [RuntimeError] that
    asks for it, without looking at the path.  When the variable is set,
    it fails exactly when expanding and resolving its value raises, and
    then with that exception.  On success the lake root is the resolved
    value of the variable and the project is the value of [TOT_PROJECT],
    or [PROJ_05_FOOD_COMMERCE] when that is unset or empty; the project is
    never empty. *)
Theorem resolve_paths_outcome (w : World) :
  (getenv w "TOT_DATALAKE_ROOT" = None
   \/ getenv w "TOT_DATALAKE_ROOT" = Some "" ->
   resolve_paths w = inl (RuntimeError root_missing_message))
  /\ (forall root, getenv w "TOT_DATALAKE_ROOT" = Some root -> root <> "" ->
        forall e, resolve_paths w = inl e <-> expanduser_resolve w root = inl e)
  /\ (forall e, resolve_paths w = inl e ->
        (e = RuntimeError root_missing_message
         /\ (getenv w "TOT_DATALAKE_ROOT" = None
             \/ getenv w "TOT_DATALAKE_ROOT" = Some ""))
        \/ (exists root, getenv w "TOT_DATALAKE_ROOT" = Some root
                         /\ root <> ""
                         /\ expanduser_resolve w root = inl e))
  /\ (forall p, resolve_paths w = inr p ->
        (exists root, getenv w "TOT_DATALAKE_ROOT" = Some root /\ root <> ""
                      /\ expanduser_resolve w root = inr (datalake_root p))
        /\ project p <> ""
        /\ (getenv w "TOT_PROJECT" = Some (project p)
            \/ (project p = "PROJ_05_FOOD_COMMERCE"
                /\ (getenv w "TOT_PROJECT" = None
                    \/ getenv w "TOT_PROJECT" = Some "")))).
Proof.
  unfold resolve_paths.
  destruct (env_cases w "TOT_DATALAKE_ROOT") as [[root [Hr Hne]]|Hr].
  - rewrite (env_set _ _ _ None Hr Hne).
    destruct (String.eqb_spec root ""); [contradiction |].
    split; [| split; [| split]].
    + intros [H|H]; rewrite Hr in H; congruence.
    + intros root' Hr' _ e. rewrite Hr in Hr'. inversion Hr'; subst root'.
      destruct (expanduser_resolve w root); split; congruence.
    + intros e He. right. exists root. split; [exact Hr |].
      split; [exact Hne |].
      destruct (expanduser_resolve w root); congruence.
    + intros p Hp.
      destruct (expanduser_resolve w root) as [e|r] eqn:Ex; [discriminate |].
      inversion Hp; subst p; clear Hp. cbn [project datalake_root].
      split; [now exists root |].
      destruct (env_cases w "TOT_PROJECT") as [[pj [Hpj Hpne]]|Hpj].
      * rewrite (env_set _ _ _ _ Hpj Hpne). split; [assumption | now left].
      * rewrite (env_unset _ _ _ Hpj). split; [discriminate | now right].
  - rewrite (env_unset _ _ None Hr). cbn [String.eqb].
    split; [| split; [| split]].
    + intros _. reflexivity.
    + intros root Hroot Hne. destruct Hr as [Hr|Hr]; rewrite Hr in Hroot;
        congruence.
    + intros e He. left. inversion He. now split.
    + intros p Hp. discriminate.
Qed.

(** X2. [validate_year] raises in these cases and in no other:
    [resolve_paths] fails (the lake root is not configured, or its value
    cannot be expanded and resolved); testing whether the year's directory
    exists raises; the directory does not exist ([FileNotFoundError]
    naming it); the first discovered file, the reference, does not load
    (the loader's error).  A later file that does not load never makes it
    raise. *)
Theorem validate_year_raises_iff
    (w : World) (year : Z) (sheet : option string) (strict_name_pattern : bool)
    (e : exn) :
  validate_year w year sheet strict_name_pattern = inl e
  <-> (resolve_paths w = inl e)
      \/ (exists p,
            resolve_paths w = inr p
            /\ path_exists w (year_dir (bronze p) year) = inl e)
      \/ (exists p,
            resolve_paths w = inr p
            /\ path_exists w (year_dir (bronze p) year) = inr false
            /\ e = FileNotFoundError
                     ("Pasta n" ++ chr 227 ++ "o encontrada: "
                        ++ path_str w (year_dir (bronze p) year)))
      \/ (exists p ref_path rest r,
            resolve_paths w = inr p
            /\ path_exists w (year_dir (bronze p) year) = inr true
            /\ glob_sorted w (year_dir (bronze p) year) "*.xlsx"
                 = ref_path :: rest
            /\ safe_read_excel w ref_path sheet = inl r
            /\ e = LoadError r).
Proof.
  unfold validate_year, find_xlsx_files.
  destruct (resolve_paths w) as [e0|p] eqn:Ep.
  - split.
    + intros H. inversion H. now left.
    + intros [H|[(p & Hp & _)|[(p & Hp & _)|(p & f & rest & r & Hp & _)]]];
        [now inversion H | discriminate | discriminate | discriminate].
  - destruct (path_exists w (year_dir (bronze p) year)) as [ex|[|]] eqn:Ex;
      cbn [negb].
    + split.
      * intros H. inversion H; subst. right. left. exists p.
        split; [reflexivity | congruence].
      * intros [H|[(p' & Hp & Hx)|[(p' & Hp & Hx & _)
                 |(p' & f & rest & r & Hp & Hx & _)]]];
          try discriminate; inversion Hp; subst p'; congruence.
    + destruct (glob_sorted w (year_dir (bronze p) year) "*.xlsx")
        as [|ref_path rest] eqn:Eg.
      * split; [discriminate |].
        intros [H|[(p' & Hp & Hx)|[(p' & Hp & Hx & _)
                 |(p' & f & rest & r & Hp & _ & Hg & _)]]];
          try discriminate; inversion Hp; subst p'; congruence.
      * destruct (safe_read_excel w ref_path sheet) as [r|ref_df] eqn:Er.
        -- split.
           ++ intros H. inversion H. right. right. right.
              exists p, ref_path, rest, r. auto.
           ++ intros [H|[(p' & Hp & Hx)|[(p' & Hp & Hx & _)
                        |(p' & f & rest' & r' & Hp & _ & Hg & Hl & He)]]];
                try discriminate;
                inversion Hp; subst p'; try congruence.
        -- split; [discriminate |].
           intros [H|[(p' & Hp & Hx)|[(p' & Hp & Hx & _)
                     |(p' & f & rest' & r' & Hp & _ & Hg & Hl & He)]]];
             try discriminate;
             inversion Hp; subst p'; try congruence.
    + split.
      * intros H. inversion H. right. right. left. exists p. auto.
      * intros [H|[(p' & Hp & Hx)|[(p' & Hp & Hx & He)
                 |(p' & f & rest & r & Hp & Hx & _)]]];
          try discriminate;
          inversion Hp; subst p'; try congruence.
        now subst e.
Qed.

(** ** Normalized labels *)

Lemma lstrip_first (s : string) (c : ascii) :
  first_char (lstrip s) = Some c -> is_space c = false.
Proof.
  induction s as [|a s IH]; simpl; [discriminate |].
  destruct (is_space a) eqn:Ea; [assumption |].
  simpl. intros H. now inversion H; subst.
Qed.

Lemma rstrip_last (s : string) (c : ascii) :
  last_char (rstrip s) = Some c -> is_space c = false.
Proof.
  induction s as [|a s IH]; simpl; [discriminate |].
  destruct (rstrip s) as [|b r] eqn:Er.
  - destruct (is_space a) eqn:Ea; simpl; [discriminate |].
    intros H. now inversion H; subst.
  - simpl. exact IH.
Qed.

Lemma rstrip_first (s : string) (c : ascii) :
  first_char (rstrip s) = Some c -> first_char s = Some c.
Proof.
  destruct s as [|a s]; simpl; [discriminate |].
  destruct (rstrip s); [destruct (is_space a) |]; simpl; congruence.
Qed.

Lemma lstrip_fixed (s : string) :
  (forall c, first_char s = Some c -> is_space c = false) -> lstrip s = s.
Proof.
  destruct s as [|a s]; simpl; [reflexivity |].
  intros H. now rewrite (H a eq_refl).
Qed.

Lemma rstrip_fixed (s : string) :
  (forall c, last_char s = Some c -> is_space c = false) -> rstrip s = s.
Proof.
  induction s as [|a s IH]; simpl; [reflexivity |].
  intros H. destruct s as [|b s'].
  - simpl. now rewrite (H a eq_refl).
  - rewrite IH by exact H. reflexivity.
Qed.

Lemma strip_trimmed (s : string) : trimmed (strip s).
Proof.
  unfold strip. split.
  - intros c H. apply rstrip_first in H. now apply lstrip_first in H.
  - apply rstrip_last.
Qed.

Lemma strip_fixed (s : string) : trimmed s -> strip s = s.
Proof.
  intros [Hf Hl]. unfold strip. rewrite (lstrip_fixed s Hf).
  now apply rstrip_fixed.
Qed.

Lemma normalize_cols_fixed (l : list string) :
  Forall trimmed l -> normalize_cols l = l.
Proof.
  induction 1 as [|x l Hx _ IH]; simpl; [reflexivity |].
  now rewrite (strip_fixed x Hx), IH.
Qed.

Lemma normalize_cols_trimmed (l : list string) :
  Forall trimmed (normalize_cols l).
Proof.
  induction l as [|x l IH]; simpl; constructor;
    [apply strip_trimmed | exact IH].
Qed.

(** X3. [normalize_cols] keeps the number and the order of the labels,
    leaves no white space at either end of any of them, changes nothing in
    a list of labels that have none, and so changes nothing when applied a
    second time. *)
Theorem normalize_cols_trims_once (cols : list string) :
  length (normalize_cols cols) = length cols
  /\ Forall trimmed (normalize_cols cols)
  /\ (Forall trimmed cols <-> normalize_cols cols = cols)
  /\ normalize_cols (normalize_cols cols) = normalize_cols cols.
Proof.
  split; [apply length_map |]. split; [apply normalize_cols_trimmed |]. split.
  - split; [apply normalize_cols_fixed |].
    intros <-. apply normalize_cols_trimmed.
  - apply normalize_cols_fixed, normalize_cols_trimmed.
Qed.

(** ** Classes of schema mismatch *)

Lemma filter_negb_mem_In (xs ys : list string) (c : string) :
  In c (filter (fun c => negb (mem c ys)) xs) <-> In c xs /\ ~ In c ys.
Proof.
  rewrite filter_In, negb_true_iff, mem_false. reflexivity.
Qed.

Lemma filter_negb_mem_nil (xs ys : list string) :
  filter (fun c => negb (mem c ys)) xs = [] <-> incl xs ys.
Proof.
  split.
  - intros H c Hc. destruct (in_dec string_dec c ys) as [|Hn]; [assumption |].
    assert (Hin : In c (filter (fun c => negb (mem c ys)) xs))
      by now apply filter_negb_mem_In.
    rewrite H in Hin. contradiction.
  - intros H. apply filter_none. intros c Hc.
    apply negb_false_iff, mem_In, H, Hc.
Qed.

(** X4. For a file whose normalized columns are not the reference's, the
    record lists as missing exactly the reference columns the file lacks
    and as extra exactly the file's columns the reference lacks;
    [order_diff_only] is true exactly when the two lists are permutations
    of each other, and then both lists are empty.  When neither list of
    columns repeats a label, empty missing and extra lists force
    [order_diff_only] to be true. *)
Theorem mismatch_record_classes (fname : string) (cols ref_cols : list string) :
  cols <> ref_cols ->
  exists missing extra order_diff,
    schema_mismatch fname cols ref_cols
      = Some (VDict [("file", VStr fname);
                     ("missing_cols", VList (map VStr missing));
                     ("extra_cols", VList (map VStr extra));
                     ("order_diff_only", VBool order_diff)])
    /\ (forall c, In c missing <-> In c ref_cols /\ ~ In c cols)
    /\ (forall c, In c extra <-> In c cols /\ ~ In c ref_cols)
    /\ (order_diff = true <-> Permutation cols ref_cols)
    /\ (order_diff = true -> missing = [] /\ extra = [])
    /\ (NoDup cols -> NoDup ref_cols ->
        missing = [] -> extra = [] -> order_diff = true).
Proof.
  intros Hne. unfold schema_mismatch.
  apply list_eqb_neq in Hne. rewrite Hne. cbn [negb andb].
  eexists _, _, _. split; [reflexivity |].
  rewrite andb_true_r.
  assert (Hperm : list_eqb (sorted cols) (sorted ref_cols) = true
                  <-> Permutation cols ref_cols).
  { rewrite list_eqb_eq. apply sorted_eq_iff. }
  split; [intro c; apply filter_negb_mem_In |].
  split; [intro c; apply filter_negb_mem_In |].
  split; [exact Hperm |]. split.
  - intros H. apply Hperm in H. split; apply filter_negb_mem_nil.
    + intros c Hc. now apply (Permutation_in _ (Permutation_sym H)).
    + intros c Hc. now apply (Permutation_in _ H).
  - intros Hd Hdr Hm He. apply Hperm.
    apply filter_negb_mem_nil in Hm, He.
    apply NoDup_Permutation; [assumption | assumption |].
    intros c. split; [apply He | apply Hm].
Qed.

Lemma mismatch_record_classes_witness :
  exists missing extra order_diff,
    schema_mismatch "2023-04.xlsx" ["order_id"; "data"]
                    ["order_id"; "data"; "valor"]
      = Some (VDict [("file", VStr "2023-04.xlsx");
                     ("missing_cols", VList (map VStr missing));
                     ("extra_cols", VList (map VStr extra));
                     ("order_diff_only", VBool order_diff)])
    /\ (forall c, In c missing <->
                  In c ["order_id"; "data"; "valor"]
                  /\ ~ In c ["order_id"; "data"]).
Proof.
  assert (Hne : ["order_id"; "data"] <> ["order_id"; "data"; "valor"])
    by discriminate.
  destruct (mismatch_record_classes "2023-04.xlsx" _ _ Hne)
    as (missing & extra & order_diff & Hs & Hm & _).
  exists missing, extra, order_diff. split; [exact Hs | exact Hm].
Defined.

(** ** More on the batch result *)

Section BatchLists.

Variables (w : World) (sheet : option string).
Variables (ref_cols : list string) (key_candidates : dict (list string)).

Lemma mismatch_files (files : list Path) :
  map (value_get "file")
      (flat_map (mismatch_of ref_cols) (loaded w sheet files))
    = map (fun f => Some (VStr (name f)))
          (filter (schema_differs w sheet ref_cols) files).
Proof.
  unfold loaded, schema_differs.
  induction files as [|f files IH]; [reflexivity |].
  cbn [flat_map filter].
  destruct (safe_read_excel w f sheet) as [e|df]; [exact IH |].
  cbn [app flat_map]. unfold mismatch_of at 1, schema_mismatch.
  cbn [fst snd].
  destruct (list_eqb (normalize_cols (columns df)) ref_cols);
    cbn [negb app map]; [exact IH |].
  now rewrite IH.
Qed.

Lemma mismatching_entries (files : list Path) :
  length (filter reports_mismatch
                 (map (file_entry w ref_cols key_candidates)
                      (loaded w sheet files)))
    = length (filter (schema_differs w sheet ref_cols) files).
Proof.
  unfold loaded, schema_differs.
  induction files as [|f files IH]; [reflexivity |].
  cbn [flat_map filter].
  destruct (safe_read_excel w f sheet) as [e|df]; [exact IH |].
  cbn [app map filter].
  unfold reports_mismatch at 1, file_entry at 1, file_result.
  cbn [value_get dict_get String.eqb Ascii.eqb Bool.eqb fst snd].
  destruct (list_eqb (normalize_cols (columns df)) ref_cols);
    cbn [negb length]; now rewrite IH.
Qed.

End BatchLists.

(** X5. In a batch result there are as many mismatch records as entries of
    [files] whose [schema_matches_reference] is false: one record, carrying
    the file's name, for each file that loads with columns other than the
    reference's, in discovery order, and none for any other file. *)
Theorem one_mismatch_record_per_differing_file
    (w : World) (year : Z) (sheet : option string) (strict_name_pattern : bool)
    (p : LakePaths) (ref_path : Path) (rest : list Path) (ref_df : DataFrame) :
  resolve_paths w = inr p ->
  find_xlsx_files w (bronze p) year = inr (ref_path :: rest) ->
  safe_read_excel w ref_path sheet = inr ref_df ->
  let files := ref_path :: rest in
  let ref_cols := normalize_cols (columns ref_df) in
  exists payload entries mismatches,
    validate_year w year sheet strict_name_pattern = inr (VDict payload)
    /\ dict_get "files" payload = Some (VList entries)
    /\ dict_get "schema_mismatches" payload = Some (VList mismatches)
    /\ map (value_get "file") mismatches
         = map (fun f => Some (VStr (name f)))
               (filter (schema_differs w sheet ref_cols) files)
    /\ length mismatches = length (filter reports_mismatch entries)
    /\ length mismatches <= length entries.
Proof.
  intros Hp Hf Hr files ref_cols.
  rewrite (validate_year_batch _ _ _ strict_name_pattern _ _ _ _ Hp Hf Hr).
  fold files. fold ref_cols.
  eexists _, _, _. do 3 (split; [reflexivity |]).
  pose proof (mismatch_files w sheet ref_cols files) as Hm.
  split; [exact Hm |].
  assert (Hlen : length (flat_map (mismatch_of ref_cols) (loaded w sheet files))
                 = length (filter (schema_differs w sheet ref_cols) files)).
  { apply (f_equal (@length _)) in Hm. now rewrite !length_map in Hm. }
  rewrite Hlen, mismatching_entries. split; [reflexivity |].
  rewrite <- (mismatching_entries w sheet ref_cols
                (pick_candidate_keys ref_cols) files).
  apply filter_length_le.
Qed.

Lemma one_mismatch_record_per_differing_file_witness :
  exists payload entries mismatches,
    validate_year Lake.world 2023 None false = inr (VDict payload)
    /\ dict_get "files" payload = Some (VList entries)
    /\ dict_get "schema_mismatches" payload = Some (VList mismatches)
    /\ map (value_get "file") mismatches = [Some (VStr "2023-03.xlsx")]
    /\ length mismatches = length (filter reports_mismatch entries).
Proof.
  destruct (one_mismatch_record_per_differing_file Lake.world 2023 None false
              Lake.paths Lake.jan_2023 Lake.rest_2023 Lake.jan
              eq_refl eq_refl eq_refl)
    as (payload & entries & mismatches & Hv & Hf & Hm & Hn & Hl & _).
  exists payload, entries, mismatches.
  split; [exact Hv |]. split; [exact Hf |]. split; [exact Hm |].
  split; [exact Hn | exact Hl].
Defined.

(** X6. In a batch result the first entry of [files] is the reference's
    own: it carries the name given as [reference_file], its
    [schema_matches_reference] is true, and [reference_columns] are its
    normalized labels.  So [files] is never empty when the reference
    loads. *)
Theorem reference_entry_comes_first
    (w : World) (year : Z) (sheet : option string) (strict_name_pattern : bool)
    (p : LakePaths) (ref_path : Path) (rest : list Path) (ref_df : DataFrame) :
  resolve_paths w = inr p ->
  find_xlsx_files w (bronze p) year = inr (ref_path :: rest) ->
  safe_read_excel w ref_path sheet = inr ref_df ->
  exists payload entry others,
    validate_year w year sheet strict_name_pattern = inr (VDict payload)
    /\ dict_get "files" payload = Some (VList (entry :: others))
    /\ dict_get "reference_file" payload = Some (VStr (name ref_path))
    /\ dict_get "reference_columns" payload
         = Some (VList (map VStr (normalize_cols (columns ref_df))))
    /\ value_get "file" entry = Some (VStr (name ref_path))
    /\ value_get "schema_matches_reference" entry = Some (VBool true)
    /\ value_get "profile" entry = Some (basic_profile ref_df).
Proof.
  intros Hp Hf Hr.
  rewrite (validate_year_batch _ _ _ strict_name_pattern _ _ _ _ Hp Hf Hr).
  unfold loaded. cbn [flat_map]. rewrite Hr. cbn [app map].
  eexists _, _, _. do 4 (split; [reflexivity |]).
  unfold file_entry, file_result.
  cbn [value_get dict_get String.eqb Ascii.eqb Bool.eqb fst snd].
  rewrite list_eqb_refl. auto.
Qed.

Lemma reference_entry_comes_first_witness :
  exists payload entry others,
    validate_year Lake.world 2023 None false = inr (VDict payload)
    /\ dict_get "files" payload = Some (VList (entry :: others))
    /\ value_get "file" entry = Some (VStr "2023-01.xlsx")
    /\ value_get "schema_matches_reference" entry = Some (VBool true).
Proof.
  destruct (reference_entry_comes_first Lake.world 2023 None false
              Lake.paths Lake.jan_2023 Lake.rest_2023 Lake.jan
              eq_refl eq_refl eq_refl)
    as (payload & entry & others & Hv & Hf & _ & _ & Hn & Hm & _).
  exists payload, entry, others.
  split; [exact Hv |]. split; [exact Hf |]. split; [exact Hn | exact Hm].
Defined.

(** ** More on the duplicates mapping *)

Lemma candidate_key_columns (ref_cols : list string)
    (kname : string) (kcols : list string) :
  dict_get kname (pick_candidate_keys ref_cols) = Some kcols ->
  forall c, In c kcols -> In c ref_cols.
Proof.
  rewrite pick_candidate_keys_shape.
  destruct (first_alias id_pedido_aliases ref_cols) as [p|] eqn:Ep;
    destruct (first_alias id_cliente_aliases ref_cols) as [c|] eqn:Ec;
    destruct (first_alias dt_aliases ref_cols) as [d|] eqn:Ed;
    try (pose proof (first_alias_Some _ _ _ Ep) as [? _]);
    try (pose proof (first_alias_Some _ _ _ Ec) as [? _]);
    try (pose proof (first_alias_Some _ _ _ Ed) as [? _]);
    cbn [app dict_get]; intros Hk;
    repeat match type of Hk with
           | context [String.eqb kname ?s] => destruct (String.eqb kname s)
           end;
    try discriminate; inversion Hk; subst kcols;
    intros x Hx; simpl in Hx; intuition (subst; assumption).
Qed.

(** X7. A table whose header labels carry no white space at either end
    has an entry in its duplicates mapping for every candidate key
    inferred from its own columns. *)
Theorem clean_headers_keep_every_key
    (df : DataFrame) (kname : string) (kcols : list string) :
  Forall trimmed (columns df) ->
  dict_get kname (pick_candidate_keys (normalize_cols (columns df)))
    = Some kcols ->
  dict_get kname
           (dup_info df (pick_candidate_keys (normalize_cols (columns df))))
    = Some (Z.of_nat (Pandas.sum (Pandas.duplicated df (Some kcols)))).
Proof.
  intros Htr Hk.
  rewrite (dup_info_key df _ kname kcols Hk).
  assert (Hall : forallb (fun c => mem c (columns df)) kcols = true).
  { apply forallb_forall. intros c Hc. apply mem_In.
    pose proof (candidate_key_columns _ _ _ Hk c Hc) as Hin.
    now rewrite (normalize_cols_fixed _ Htr) in Hin. }
  now rewrite Hall.
Qed.

Lemma clean_headers_keep_every_key_witness :
  dict_get "dup_order_id"
           (dup_info Lake.feb
              (pick_candidate_keys (normalize_cols (columns Lake.feb))))
    = Some 2%Z.
Proof.
  assert (Htr : Forall trimmed (columns Lake.feb)).
  { repeat constructor; intros c H; inversion H; reflexivity. }
  exact (clean_headers_keep_every_key Lake.feb "dup_order_id" ["order_id"]
           Htr eq_refl).
Defined.

Lemma duplicated_first_length (keys : list (list cell)) :
  forall seen, length (Pandas.duplicated_first seen keys) = length keys.
Proof.
  induction keys as [|k ks IH]; intros seen; simpl; [reflexivity |].
  now rewrite IH.
Qed.

Lemma sum_le_length (bs : list bool) : Pandas.sum bs <= length bs.
Proof. apply filter_length_le. Qed.

(** The first row of a table is never marked, so fewer rows are marked
    than there are rows. *)
Lemma duplicated_sum_bound (df : DataFrame) (subset : option (list string)) :
  Pandas.sum (Pandas.duplicated df subset) <= length (rows df) - 1.
Proof.
  unfold Pandas.duplicated.
  destruct (Pandas.empty df); [exact (Nat.le_0_l _) |].
  destruct (rows df) as [|r rs]; [exact (Nat.le_0_l _) |].
  cbn [map Pandas.duplicated_first length].
  destruct (in_dec row_eq_dec _ []) as [[]|_].
  unfold Pandas.sum. cbn [filter].
  pose proof (sum_le_length
    (Pandas.duplicated_first
       [Pandas.subset_values
          match subset with Some s => s | None => columns df end
          (columns df) r]
       (map (Pandas.subset_values
               match subset with Some s => s | None => columns df end
               (columns df)) rs))) as H.
  rewrite duplicated_first_length, length_map in H.
  unfold Pandas.sum in H. lia.
Qed.

Lemma dup_info_value (df : DataFrame) (ref_cols : list string)
    (kname : string) (n : Z) :
  dict_get kname (dup_info df (pick_candidate_keys ref_cols)) = Some n ->
  exists subset, n = Z.of_nat (Pandas.sum (Pandas.duplicated df subset)).
Proof.
  rewrite pick_candidate_keys_shape. unfold dup_info.
  destruct (first_alias id_pedido_aliases ref_cols) as [p|];
    destruct (first_alias id_cliente_aliases ref_cols) as [c|];
    destruct (first_alias dt_aliases ref_cols) as [d|];
    cbn [app fold_left];
    repeat match goal with
           | |- context [forallb ?f ?l] => destruct (forallb f l)
           end;
    cbn [dict_set dict_get String.eqb Ascii.eqb Bool.eqb];
    intros Hk;
    repeat match type of Hk with
           | context [String.eqb kname ?s] => destruct (String.eqb kname s)
           end;
    try discriminate; inversion Hk; eauto.
Qed.

Lemma dup_info_labels (df : DataFrame) (ref_cols : list string) :
  exists others,
    dict_keys (dup_info df (pick_candidate_keys ref_cols))
      = "dup_full_row_count" :: others
    /\ (others = [] \/ others = ["dup_order_id"]
        \/ others = ["dup_cliente_data"]
        \/ others = ["dup_order_id"; "dup_cliente_data"]).
Proof.
  rewrite pick_candidate_keys_shape. unfold dup_info.
  destruct (first_alias id_pedido_aliases ref_cols) as [p|];
    destruct (first_alias id_cliente_aliases ref_cols) as [c|];
    destruct (first_alias dt_aliases ref_cols) as [d|];
    cbn [app fold_left];
    repeat match goal with
           | |- context [forallb ?f ?l] => destruct (forallb f l)
           end;
    eexists; (split; [reflexivity | tauto]).
Qed.

(** X8. Every count in the duplicates mapping of a file is at least 0 and
    at most the number of rows less one; a table of no row or one row has
    only zeros.  The mapping starts with [dup_full_row_count] and holds no
    label twice and none but the three the summary reads. *)
Theorem duplicate_counts_bounded
    (df : DataFrame) (ref_cols : list string) :
  let duplicates := dup_info df (pick_candidate_keys ref_cols) in
  (forall kname n,
     dict_get kname duplicates = Some n ->
     (0 <= n <= Z.of_nat (length (rows df) - 1))%Z)
  /\ (length (rows df) <= 1 ->
      forall kname n, dict_get kname duplicates = Some n -> n = 0%Z)
  /\ NoDup (dict_keys duplicates)
  /\ hd_error (dict_keys duplicates) = Some "dup_full_row_count"
  /\ incl (dict_keys duplicates)
          ["dup_full_row_count"; "dup_order_id"; "dup_cliente_data"].
Proof.
  intros duplicates.
  assert (Hb : forall kname n,
             dict_get kname duplicates = Some n ->
             (0 <= n <= Z.of_nat (length (rows df) - 1))%Z).
  { intros kname n Hn. apply dup_info_value in Hn.
    destruct Hn as [subset ->].
    pose proof (duplicated_sum_bound df subset). lia. }
  split; [exact Hb |]. split.
  - intros Hle kname n Hn. apply Hb in Hn. lia.
  - destruct (dup_info_labels df ref_cols) as (others & Hk & Ho).
    fold duplicates in Hk. rewrite Hk.
    destruct Ho as [Ho|[Ho|[Ho|Ho]]]; subst others; (split; [| split]);
      try reflexivity;
      try (repeat constructor; simpl; intuition discriminate);
      try (intros k Hk'; simpl in *; tauto).
Qed.

(** ** The reports *)

Lemma VInts_get (k : string) (d : dict Z) :
  value_get k (VInts d) = option_map VInt (dict_get k d).
Proof.
  unfold VInts. cbn [value_get].
  induction d as [|[k' v] d IH]; [reflexivity |].
  cbn [map dict_get fst snd]. now destruct (String.eqb k k').
Qed.

Lemma nonempty_length {A} (l : list A) : nonempty l = (0 <? length l).
Proof. now destruct l. Qed.

Lemma report_count_list (payload : value) (k label : string) (l : list value) :
  value_get k payload = Some (VList l) ->
  report_count payload k label
    = inr (if 0 <? length l
           then [Print (label ++ str_int (Z.of_nat (length l)))]
           else []).
Proof.
  intros H. unfold report_count. rewrite H. cbn [py_truth py_len].
  rewrite nonempty_length. now destruct (0 <? length l).
Qed.

Lemma report_count_absent (payload : value) (k label : string) :
  value_get k payload = None -> report_count payload k label = inr [].
Proof. intros H. unfold report_count. now rewrite H. Qed.

(** X9. The summary line of a file's entry has the nine fixed columns.  It
    carries the file's name, its numbers of rows and of columns and its
    schema flag, and, for each of the three duplicate labels, the count
    the duplicates mapping holds for it or [None] when the mapping has no
    such entry: an absent key is written as absent, not as zero, and no
    entry of the mapping is left out. *)
Theorem summary_line_of_entry
    (w : World) (f : Path) (df : DataFrame) (ref_cols : list string)
    (year : value) :
  let duplicates := dup_info df (pick_candidate_keys ref_cols) in
  let line :=
    summary_row year
      (file_result w f df ref_cols (pick_candidate_keys ref_cols)) in
  dict_keys line
    = ["year"; "file"; "rows"; "cols"; "total_nulls"; "dup_full_row_count";
       "dup_order_id"; "dup_cliente_data"; "schema_matches_reference"]
  /\ dict_get "year" line = Some (Some year)
  /\ dict_get "file" line = Some (Some (VStr (name f)))
  /\ dict_get "rows" line = Some (Some (VInt (Z.of_nat (length (rows df)))))
  /\ dict_get "cols" line
       = Some (Some (VInt (Z.of_nat (length (columns df)))))
  /\ dict_get "schema_matches_reference" line
       = Some (Some (VBool (list_eqb (normalize_cols (columns df)) ref_cols)))
  /\ (forall k, In k ["dup_full_row_count"; "dup_order_id"; "dup_cliente_data"] ->
        dict_get k line = Some (option_map VInt (dict_get k duplicates)))
  /\ (forall k n, dict_get k duplicates = Some n ->
        dict_get k line = Some (Some (VInt n)))
  /\ (dict_get "dup_order_id" duplicates = None ->
        dict_get "dup_order_id" line = Some None).
Proof.
  intros duplicates line.
  assert (Hline :
    line = [("year", Some year);
            ("file", Some (VStr (name f)));
            ("rows", Some (VInt (Z.of_nat (length (rows df)))));
            ("cols", Some (VInt (Z.of_nat (length (columns df)))));
            ("total_nulls",
              Some (VInt (Z.of_nat (list_sum (map snd (Pandas.isna_sum df))))));
            ("dup_full_row_count",
              option_map VInt (dict_get "dup_full_row_count" duplicates));
            ("dup_order_id",
              option_map VInt (dict_get "dup_order_id" duplicates));
            ("dup_cliente_data",
              option_map VInt (dict_get "dup_cliente_data" duplicates));
            ("schema_matches_reference",
              Some (VBool (list_eqb (normalize_cols (columns df)) ref_cols)))]).
  { unfold line, summary_row, file_result, get_or.
    cbn [value_get dict_get String.eqb Ascii.eqb Bool.eqb].
    fold duplicates.
    change (dict_get "dup_full_row_count"
              (map (fun kv => (fst kv, VInt (snd kv))) duplicates))
      with (value_get "dup_full_row_count" (VInts duplicates)).
    change (dict_get "dup_order_id"
              (map (fun kv => (fst kv, VInt (snd kv))) duplicates))
      with (value_get "dup_order_id" (VInts duplicates)).
    change (dict_get "dup_cliente_data"
              (map (fun kv => (fst kv, VInt (snd kv))) duplicates))
      with (value_get "dup_cliente_data" (VInts duplicates)).
    rewrite !VInts_get. reflexivity. }
  assert (Hdups : forall k,
             In k ["dup_full_row_count"; "dup_order_id"; "dup_cliente_data"] ->
             dict_get k line = Some (option_map VInt (dict_get k duplicates))).
  { rewrite Hline. intros k [<-|[<-|[<-|[]]]]; reflexivity. }
  split; [now rewrite Hline |].
  do 5 (split; [now rewrite Hline |]).
  split; [exact Hdups |]. split.
  - intros k n Hn.
    assert (Hin : In k (dict_keys duplicates)).
    { clear - Hn. unfold dict_keys.
      induction duplicates as [|[k' v] d IH]; [discriminate |].
      cbn [dict_get] in Hn. destruct (String.eqb_spec k k').
      - left. now subst.
      - right. now apply IH. }
    destruct (dup_info_labels df ref_cols) as (others & Hk & Ho).
    fold duplicates in Hk. rewrite Hk in Hin.
    rewrite Hdups, Hn; [reflexivity |].
    destruct Ho as [Ho|[Ho|[Ho|Ho]]]; subst others; simpl in *; tauto.
  - intros Hnone. rewrite Hdups, Hnone; [reflexivity | simpl; tauto].
Qed.

(** What [main] writes and prints on a batch, writing taken to succeed. *)
Lemma main_batch_trace
    (w : World) (pr : Process) (year : Z) (sheet : option string)
    (strict_names : bool)
    (p : LakePaths) (ref_path : Path) (rest : list Path) (ref_df : DataFrame) :
  resolve_paths w = inr p ->
  find_xlsx_files w (bronze p) year = inr (ref_path :: rest) ->
  safe_read_excel w ref_path sheet = inr ref_df ->
  let files := ref_path :: rest in
  let ref_cols := normalize_cols (columns ref_df) in
  let failures := length (filter (load_fails w sheet) files) in
  let differing := length (filter (schema_differs w sheet ref_cols) files) in
  let flagged :=
    if strict_names then length (filter (name_issue year) files) else 0 in
  exists payload json_path csv_path lines status,
    validate_year w year sheet strict_names = inr payload
    /\ value_get "status" payload = Some (VStr status)
    /\ main w pr year sheet strict_names =
         ([Mkdir (path_div (cwd_resolved pr) "logs");
           WriteJson json_path payload;
           WriteCsv csv_path lines;
           Print (ok_line pr year (VStr status));
           Print ("     JSON: " ++ path_str w json_path);
           Print ("     CSV : " ++ path_str w csv_path)]
          ++ (if 0 <? flagged
              then [Print (name_issues_label ++ str_int (Z.of_nat flagged))]
              else [])
          ++ (if 0 <? differing
              then [Print (schema_mismatches_label
                             ++ str_int (Z.of_nat differing))]
              else [])
          ++ (if 0 <? failures
              then [Print (read_errors_label ++ str_int (Z.of_nat failures))]
              else []),
          inr (if 0 <? failures then 2%Z else 0%Z))
    /\ length lines + failures = length files.
Proof.
  intros Hp Hf Hr files ref_cols failures differing flagged.
  pose proof (validate_year_batch _ _ _ strict_names _ _ _ _ Hp Hf Hr) as Hv.
  fold files in Hv. fold ref_cols in Hv.
  set (issues := if strict_names
                 then map name (filter (name_issue year) files) else [])
    in Hv.
  set (errors := map read_error_entry (failed w sheet files)) in Hv.
  set (mismatches := flat_map (mismatch_of ref_cols) (loaded w sheet files))
    in Hv.
  set (entries := map (file_entry w ref_cols (pick_candidate_keys ref_cols))
                      (loaded w sheet files)) in Hv.
  assert (Hflag : length (map VStr issues) = flagged).
  { unfold issues, flagged. rewrite length_map.
    destruct strict_names; [apply length_map | reflexivity]. }
  assert (Hdiff : length mismatches = differing).
  { pose proof (mismatch_files w sheet ref_cols files) as Hm.
    apply (f_equal (@length _)) in Hm. now rewrite !length_map in Hm. }
  assert (Hfail : length errors = failures).
  { unfold errors, failures.
    rewrite <- (failed_files w sheet files), !length_map. reflexivity. }
  assert (Hloaded : length entries + failures = length files).
  { unfold entries. rewrite length_map, <- Hfail. unfold errors.
    rewrite length_map. apply loaded_failed_length. }
  set (status := if nonempty errors then "error"
                 else if nonempty mismatches || nonempty issues
                      then "warning" else "ok") in Hv.
  eexists _, _, _, _, status. split; [exact Hv |].
  split; [reflexivity |].
  unfold main. rewrite Hv. unfold write_reports.
  cbn [value_get dict_get String.eqb Ascii.eqb Bool.eqb items_of].
  rewrite (report_count_list _ "name_issues" _ (map VStr issues))
    by reflexivity.
  rewrite (report_count_list _ "schema_mismatches" _ mismatches)
    by reflexivity.
  rewrite (report_count_list _ "read_errors" _ errors) by reflexivity.
  rewrite Hflag, Hdiff, Hfail.
  split; [| rewrite length_map; exact Hloaded].
  f_equal.
  - rewrite <- !app_assoc. reflexivity.
  - f_equal. unfold status. rewrite (nonempty_length errors), Hfail.
    destruct (0 <? failures); [reflexivity |].
    now destruct (nonempty mismatches || nonempty issues).
Qed.

(** X10. Whenever [main] runs to its exit code on a batch whose reference
    loads, it has created the logs directory, written the whole payload as
    JSON and one summary line per file that loaded, printed the three
    lines of the report, then one warning for the name issues, one for the
    schema mismatches and one error line for the read errors, each with
    its count and each only when the count is not zero; the exit code is 2
    when some file failed to load and 0 otherwise.  (A run in which
    writing a report fails does not reach an exit code.) *)
Theorem main_reports_batch
    (w : World) (pr : Process) (year : Z) (sheet : option string)
    (strict_names : bool)
    (p : LakePaths) (ref_path : Path) (rest : list Path) (ref_df : DataFrame)
    (events : list event) (code : Z) :
  resolve_paths w = inr p ->
  find_xlsx_files w (bronze p) year = inr (ref_path :: rest) ->
  safe_read_excel w ref_path sheet = inr ref_df ->
  main w pr year sheet strict_names = (events, inr code) ->
  let files := ref_path :: rest in
  let ref_cols := normalize_cols (columns ref_df) in
  let failures := length (filter (load_fails w sheet) files) in
  let differing := length (filter (schema_differs w sheet ref_cols) files) in
  let flagged :=
    if strict_names then length (filter (name_issue year) files) else 0 in
  exists payload json_path csv_path lines status,
    validate_year w year sheet strict_names = inr payload
    /\ value_get "status" payload = Some (VStr status)
    /\ events =
         [Mkdir (path_div (cwd_resolved pr) "logs");
          WriteJson json_path payload;
          WriteCsv csv_path lines;
          Print (ok_line pr year (VStr status));
          Print ("     JSON: " ++ path_str w json_path);
          Print ("     CSV : " ++ path_str w csv_path)]
         ++ (if 0 <? flagged
             then [Print (name_issues_label ++ str_int (Z.of_nat flagged))]
             else [])
         ++ (if 0 <? differing
             then [Print (schema_mismatches_label
                            ++ str_int (Z.of_nat differing))]
             else [])
         ++ (if 0 <? failures
             then [Print (read_errors_label ++ str_int (Z.of_nat failures))]
             else [])
    /\ code = (if 0 <? failures then 2%Z else 0%Z)
    /\ length lines + failures = length files
    /\ (code = 2%Z <-> existsb (load_fails w sheet) files = true).
Proof.
  intros Hp Hf Hr Hmain files ref_cols failures differing flagged.
  destruct (main_batch_trace w pr year sheet strict_names p ref_path rest
              ref_df Hp Hf Hr)
    as (payload & jp & cp & lines & status & Hv & Hs & Hm & Hlen).
  rewrite Hmain in Hm. inversion Hm as [[Hev Hcode]]. clear Hm Hmain.
  subst events code.
  exists payload, jp, cp, lines, status.
  split; [exact Hv |]. split; [exact Hs |]. split; [reflexivity |].
  split; [reflexivity |]. split; [exact Hlen |].
  rewrite <- nonempty_filter, nonempty_length.
  subst failures files. cbv zeta.
  cbn [filter].
  match goal with
  | |- context [0 <? ?n] => destruct (0 <? n)
  end; split; intros H; try reflexivity; discriminate.
Qed.

Lemma main_reports_batch_witness :
  exists payload json_path csv_path lines status,
    validate_year Lake.world 2023 None true = inr payload
    /\ value_get "status" payload = Some (VStr status)
    /\ fst (main Lake.world Run.process 2023 None true) =
         [Mkdir (path_div (cwd_resolved Run.process) "logs");
          WriteJson json_path payload;
          WriteCsv csv_path lines;
          Print (ok_line Run.process 2023 (VStr status));
          Print ("     JSON: " ++ path_str Lake.world json_path);
          Print ("     CSV : " ++ path_str Lake.world csv_path);
          Print (name_issues_label ++ "1");
          Print (schema_mismatches_label ++ "1");
          Print (read_errors_label ++ "1")].
Proof.
  destruct (main_reports_batch Lake.world Run.process 2023 None true
              Lake.paths Lake.jan_2023 Lake.rest_2023 Lake.jan
              (fst (main Lake.world Run.process 2023 None true)) 2%Z
              eq_refl eq_refl eq_refl eq_refl)
    as (payload & jp & cp & lines & status & Hv & Hs & Hev & _).
  exists payload, jp, cp, lines, status.
  split; [exact Hv |]. split; [exact Hs | exact Hev].
Defined.

(** X11. When the year's directory holds no file, [main] still writes both
    reports: the JSON carries the three-entry [no_files] payload, the
    summary has no line, no warning and no error line is printed, and the
    exit code is 0. *)
Theorem main_reports_no_files
    (w : World) (pr : Process) (year : Z) (sheet : option string)
    (strict_names : bool) (p : LakePaths) :
  resolve_paths w = inr p ->
  find_xlsx_files w (bronze p) year = inr [] ->
  exists payload json_path csv_path,
    validate_year w year sheet strict_names = inr payload
    /\ value_get "status" payload = Some (VStr "no_files")
    /\ main w pr year sheet strict_names =
         ([Mkdir (path_div (cwd_resolved pr) "logs");
           WriteJson json_path payload;
           WriteCsv csv_path [];
           Print (ok_line pr year (VStr "no_files"));
           Print ("     JSON: " ++ path_str w json_path);
           Print ("     CSV : " ++ path_str w csv_path)],
          inr 0%Z).
Proof.
  intros Hp Hf.
  assert (Hv : validate_year w year sheet strict_names
               = inr (VDict
                   [("year", VInt year);
                    ("status", VStr "no_files");
                    ("message",
                      VStr ("Nenhum .xlsx encontrado em "
                              ++ path_str w (year_dir (bronze p) year)))])).
  { unfold validate_year. now rewrite Hp, Hf. }
  eexists _, _, _. split; [exact Hv |]. split; [reflexivity |].
  unfold main. rewrite Hv. unfold write_reports.
  cbn [value_get dict_get String.eqb Ascii.eqb Bool.eqb items_of map].
  rewrite !report_count_absent by reflexivity.
  reflexivity.
Qed.

Lemma main_reports_no_files_witness :
  exists events, main Lake.world Run.process 2020 None true = (events, inr 0%Z).
Proof.
  destruct (main_reports_no_files Lake.world Run.process 2020 None true
              Lake.paths eq_refl eq_refl)
    as (payload & jp & cp & _ & _ & Hm).
  eexists. exact Hm.
Defined.


(** ** The profile *)

Lemma nulls_in_row_0 (row : list cell) : nulls_in_row 0 row = 0.
Proof. reflexivity. Qed.

Lemma nulls_in_row_S (n : nat) (row : list cell) :
  nulls_in_row (S n) row
    = (if Pandas.isna (hd NaN row) then 1 else 0) + nulls_in_row n (tl row).
Proof.
  unfold nulls_in_row. cbn [seq map filter].
  rewrite <- seq_shift, map_map, <- hd_nth.
  assert (E : map (fun j => nth (S j) row NaN) (seq 0 n)
              = map (fun j => nth j (tl row) NaN) (seq 0 n)).
  { apply map_ext. intros j. now rewrite nth_tl. }
  rewrite E. now destruct (Pandas.isna (hd NaN row)).
Qed.

Lemma nulls_in_row_le (n : nat) (row : list cell) : nulls_in_row n row <= n.
Proof.
  unfold nulls_in_row.
  etransitivity; [apply filter_length_le |].
  now rewrite length_map, length_seq.
Qed.

Lemma list_sum_cons (x : nat) (l : list nat) :
  list_sum (x :: l) = x + list_sum l.
Proof. reflexivity. Qed.

(** Counting the nulls column by column or row by row gives the same
    total. *)
Lemma isna_sum_by_rows (cols : list string) :
  forall rs,
    list_sum (map snd (Pandas.isna_sum_cols cols rs))
      = list_sum (map (nulls_in_row (length cols)) rs).
Proof.
  induction cols as [|c cs IH]; intros rs.
  - cbn [Pandas.isna_sum_cols map length].
    induction rs as [|r rs IHr]; [reflexivity |].
    cbn [map]. rewrite list_sum_cons, <- IHr. reflexivity.
  - cbn [Pandas.isna_sum_cols map length snd].
    rewrite list_sum_cons, IH.
    induction rs as [|r rs IHr]; [reflexivity |].
    cbn [map filter].
    rewrite !list_sum_cons, nulls_in_row_S, <- IHr.
    destruct (Pandas.isna (hd NaN r)); cbn [length]; lia.
Qed.

Lemma null_cells_le (df : DataFrame) :
  null_cells df <= length (rows df) * length (columns df).
Proof.
  unfold null_cells. induction (rows df) as [|r rs IH]; [simpl; lia |].
  cbn [map length]. rewrite list_sum_cons.
  pose proof (nulls_in_row_le (length (columns df)) r). lia.
Qed.

(** X13. The profile of a table gives its number of rows, its number of
    columns and, as [total_nulls], the number of its null cells counted
    cell by cell, which is at most rows times columns; [top_nulls] is the
    list of the ranked (label, count) pairs. *)
Theorem basic_profile_counts (df : DataFrame) :
  value_get "rows" (basic_profile df)
    = Some (VInt (Z.of_nat (length (rows df))))
  /\ value_get "cols" (basic_profile df)
       = Some (VInt (Z.of_nat (length (columns df))))
  /\ value_get "total_nulls" (basic_profile df)
       = Some (VInt (Z.of_nat (null_cells df)))
  /\ null_cells df <= length (rows df) * length (columns df)
  /\ value_get "top_nulls" (basic_profile df)
       = Some (VList
           (map (fun kv => VTuple [VStr (fst kv); VInt (Z.of_nat (snd kv))])
                (top_nulls_of df))).
Proof.
  unfold basic_profile, Pandas.shape.
  cbn [value_get dict_get String.eqb Ascii.eqb Bool.eqb].
  split; [reflexivity |]. split; [reflexivity |]. split.
  - unfold Pandas.isna_sum, null_cells. now rewrite isna_sum_by_rows.
  - split; [apply null_cells_le | reflexivity].
Qed.

Lemma dict_set_In {V} (k : string) (v : V) (d : dict V) (kv : string * V) :
  In kv (dict_set k v d) -> kv = (k, v) \/ In kv d.
Proof.
  induction d as [|[k' v'] d IH]; simpl.
  - intros [<-|[]]. now left.
  - destruct (String.eqb k k'); simpl.
    + intros [<-|H]; [now left | right; now right].
    + intros [<-|H]; [right; now left |].
      destruct (IH H) as [->|H']; [now left | right; now right].
Qed.

Lemma to_dict_In (s : list (string * nat)) (kv : string * nat) :
  In kv (Pandas.to_dict s) -> In kv s.
Proof.
  unfold Pandas.to_dict.
  assert (H : forall acc,
             In kv (fold_left (fun d x => dict_set (fst x) (snd x) d) s acc) ->
             In kv acc \/ In kv s).
  { induction s as [|x s IH]; intros acc; simpl; [now left |].
    intros Hin. destruct (IH _ Hin) as [Hacc|Hs]; [| right; now right].
    apply dict_set_In in Hacc. destruct Hacc as [->|Hacc];
      [right; left; now destruct x | now left]. }
  intros Hin. destruct (H [] Hin) as [[]|Hs]. exact Hs.
Qed.

Lemma isna_sum_cols_In (cols : list string) :
  forall rs c n,
    In (c, n) (Pandas.isna_sum_cols cols rs) -> In c cols /\ n <= length rs.
Proof.
  induction cols as [|c0 cs IH]; intros rs c n; simpl; [intros [] |].
  intros [H|H].
  - inversion H; subst. split; [now left |].
    etransitivity; [apply filter_length_le | now rewrite length_map].
  - destruct (IH _ _ _ H) as [Hc Hn]. rewrite length_map in Hn.
    split; [now right | exact Hn].
Qed.

Lemma insert_desc_Permutation (x : string * nat) (l : list (string * nat)) :
  Permutation (insert_desc x l) (x :: l).
Proof.
  induction l as [|y l IH]; simpl; [reflexivity |].
  destruct (snd y <=? snd x); [reflexivity |].
  rewrite IH. apply perm_swap.
Qed.

Lemma sorted_by_count_desc_Permutation (l : list (string * nat)) :
  Permutation (sorted_by_count_desc l) l.
Proof.
  unfold sorted_by_count_desc.
  induction l as [|x l IH]; simpl; [reflexivity |].
  rewrite insert_desc_Permutation. now constructor.
Qed.

Lemma insert_desc_sorted (x : string * nat) (l : list (string * nat)) :
  StronglySorted by_count_desc l ->
  StronglySorted by_count_desc (insert_desc x l).
Proof.
  induction 1 as [|y l Hs IH Hy]; simpl.
  - repeat constructor.
  - destruct (snd y <=? snd x) eqn:E.
    + apply Nat.leb_le in E. constructor; [now constructor |].
      constructor; [exact E |].
      rewrite Forall_forall in *. intros z Hz. specialize (Hy z Hz).
      unfold by_count_desc in *. lia.
    + apply Nat.leb_gt in E. constructor; [exact IH |].
      rewrite Forall_forall in *. intros z Hz.
      apply (Permutation_in _ (insert_desc_Permutation x l)) in Hz.
      destruct Hz as [<-|Hz]; [unfold by_count_desc; lia | now apply Hy].
Qed.

Lemma sorted_by_count_desc_sorted (l : list (string * nat)) :
  StronglySorted by_count_desc (sorted_by_count_desc l).
Proof.
  unfold sorted_by_count_desc.
  induction l as [|x l IH]; simpl; [constructor | now apply insert_desc_sorted].
Qed.

Lemma firstn_In {A} (n : nat) (l : list A) (x : A) :
  In x (firstn n l) -> In x l.
Proof.
  revert l. induction n as [|n IH]; intros [|y l]; simpl; try tauto.
  intros [H|H]; [now left | right; now apply IH].
Qed.

Lemma StronglySorted_firstn {A} (R : A -> A -> Prop) (n : nat) (l : list A) :
  StronglySorted R l -> StronglySorted R (firstn n l).
Proof.
  intros Hs. revert n. induction Hs as [|y l Hs IH Hy]; intros [|n]; simpl;
    try constructor; [apply IH |].
  rewrite Forall_forall in *. intros z Hz. apply Hy. now apply firstn_In in Hz.
Qed.

Lemma StronglySorted_filter {A} (R : A -> A -> Prop) (f : A -> bool)
    (l : list A) :
  StronglySorted R l -> StronglySorted R (filter f l).
Proof.
  induction 1 as [|y l Hs IH Hy]; simpl; [constructor |].
  destruct (f y); [| exact IH]. constructor; [exact IH |].
  rewrite Forall_forall in *. intros z Hz. apply filter_In in Hz.
  now apply Hy.
Qed.

(** X14. [top_nulls] has at most ten pairs, in order of counts that never
    go up; every pair is a header label of the table with the number of
    nulls of a column of that label, a number that is at least 1 and at
    most the number of rows.  A table without null cells has an empty
    [top_nulls]. *)
Theorem top_nulls_ranked (df : DataFrame) :
  length (top_nulls_of df) <= 10
  /\ StronglySorted by_count_desc (top_nulls_of df)
  /\ (forall c n, In (c, n) (top_nulls_of df) ->
        In (c, n) (Pandas.isna_sum df)
        /\ In c (columns df) /\ 1 <= n <= length (rows df))
  /\ (null_cells df = 0 -> top_nulls_of df = []).
Proof.
  assert (Hin : forall c n, In (c, n) (top_nulls_of df) ->
                  In (c, n) (Pandas.isna_sum df)
                  /\ In c (columns df) /\ 1 <= n <= length (rows df)).
  { intros c n H. unfold top_nulls_of in H. apply filter_In in H.
    destruct H as [H Hpos]. apply firstn_In in H.
    apply (Permutation_in _ (sorted_by_count_desc_Permutation _)) in H.
    apply to_dict_In in H. split; [exact H |].
    apply isna_sum_cols_In in H. cbn [snd] in Hpos.
    apply Nat.ltb_lt in Hpos. intuition lia. }
  split; [| split; [| split; [exact Hin |]]].
  - unfold top_nulls_of. etransitivity; [apply filter_length_le |].
    rewrite length_firstn. lia.
  - unfold top_nulls_of.
    apply StronglySorted_filter, StronglySorted_firstn,
      sorted_by_count_desc_sorted.
  - intros Hz. destruct (top_nulls_of df) as [|[c n] l] eqn:E; [reflexivity |].
    exfalso. destruct (Hin c n) as (Hs & _ & Hn & _); [now left |].
    unfold null_cells in Hz. rewrite <- isna_sum_by_rows in Hz.
    fold (Pandas.isna_sum df) in Hz.
    assert (Hle : forall (l : list (string * nat)) kv,
               In kv l -> snd kv <= list_sum (map snd l)).
    { clear. induction l as [|y l IH]; simpl; [tauto |].
      intros kv [<-|H]; [lia |]. specialize (IH kv H). lia. }
    specialize (Hle _ _ Hs). cbn [snd] in Hle. lia.
Qed.

Lemma insert_desc_has_count (n : nat) (x : string * nat)
    (l : list (string * nat)) :
  filter (has_count n) (insert_desc x l) = filter (has_count n) (x :: l).
Proof.
  induction l as [|y l IH]; [reflexivity |].
  cbn [insert_desc]. destruct (snd y <=? snd x) eqn:E; [reflexivity |].
  apply Nat.leb_gt in E.
  cbn [filter] in *. rewrite IH. unfold has_count.
  destruct (snd x =? n) eqn:Ex; [| reflexivity].
  apply Nat.eqb_eq in Ex.
  assert (Ey : (snd y =? n) = false) by (apply Nat.eqb_neq; lia).
  now rewrite Ey.
Qed.

(** The ranking keeps pairs of the same count in the order they had. *)
Lemma sorted_by_count_desc_stable (n : nat) (l : list (string * nat)) :
  filter (has_count n) (sorted_by_count_desc l) = filter (has_count n) l.
Proof.
  unfold sorted_by_count_desc.
  induction l as [|x l IH]; [reflexivity |].
  cbn [fold_right]. rewrite insert_desc_has_count.
  cbn [filter]. now rewrite IH.
Qed.

Lemma dict_set_fresh {V} (k : string) (v : V) (d : dict V) :
  ~ In k (dict_keys d) -> dict_set k v d = d ++ [(k, v)].
Proof.
  unfold dict_keys. induction d as [|[k' v'] d IH]; simpl; [reflexivity |].
  intros H. destruct (String.eqb_spec k k') as [->|_]; [tauto |].
  rewrite IH; [reflexivity | tauto].
Qed.

Lemma to_dict_unique_labels (s : list (string * nat)) :
  NoDup (map fst s) -> Pandas.to_dict s = s.
Proof.
  unfold Pandas.to_dict.
  assert (H : forall acc,
             NoDup (map fst (acc ++ s)) ->
             fold_left (fun d x => dict_set (fst x) (snd x) d) s acc
               = acc ++ s).
  { induction s as [|[k v] s IH]; intros acc Hnd; simpl.
    - now rewrite app_nil_r.
    - rewrite dict_set_fresh.
      + rewrite IH; rewrite <- app_assoc; [reflexivity | exact Hnd].
      + rewrite map_app in Hnd. simpl in Hnd.
        apply NoDup_remove_2 in Hnd. unfold dict_keys. intros Hin.
        apply Hnd, in_or_app. now left. }
  intros Hnd. now apply (H []).
Qed.

Lemma isna_sum_cols_labels (cols : list string) :
  forall rs, map fst (Pandas.isna_sum_cols cols rs) = cols.
Proof.
  induction cols as [|c cs IH]; intros rs; simpl; [reflexivity |].
  now rewrite IH.
Qed.

(** X15. In a table whose header labels are all different, the null
    counts are ranked without losing or merging a column, and columns with
    the same number of nulls stay in the order of the header: ties are
    broken by column order. *)
Theorem null_ranking_ties_in_column_order (df : DataFrame) :
  NoDup (columns df) ->
  let ranking := sorted_by_count_desc (Pandas.to_dict (Pandas.isna_sum df)) in
  Permutation ranking (Pandas.isna_sum df)
  /\ map fst (Pandas.isna_sum df) = columns df
  /\ StronglySorted by_count_desc ranking
  /\ (forall n, filter (has_count n) ranking
                = filter (has_count n) (Pandas.isna_sum df)).
Proof.
  intros Hnd ranking. unfold ranking, Pandas.isna_sum.
  rewrite to_dict_unique_labels by now rewrite isna_sum_cols_labels.
  split; [apply sorted_by_count_desc_Permutation |].
  split; [apply isna_sum_cols_labels |].
  split; [apply sorted_by_count_desc_sorted |].
  intros n. apply sorted_by_count_desc_stable.
Qed.

Lemma null_ranking_ties_in_column_order_witness :
  filter (has_count 0)
         (sorted_by_count_desc (Pandas.to_dict (Pandas.isna_sum Lake.feb)))
    = [("order_id", 0); ("cliente_id", 0); ("data", 0)].
Proof.
  assert (Hnd : NoDup (columns Lake.feb)).
  { repeat constructor; simpl; intuition discriminate. }
  destruct (null_ranking_ties_in_column_order Lake.feb Hnd) as (_ & _ & _ & H).
  rewrite H. reflexivity.
Defined.

Lemma list_sum_Permutation (l1 l2 : list nat) :
  Permutation l1 l2 -> list_sum l1 = list_sum l2.
Proof.
  induction 1; rewrite ?list_sum_cons; lia.
Qed.

Lemma Permutation_filter {A} (f : A -> bool) (l1 l2 : list A) :
  Permutation l1 l2 -> Permutation (filter f l1) (filter f l2).
Proof.
  induction 1 as [|x l l' _ IH|x y l|l l' l'' _ IH1 _ IH2]; simpl.
  - reflexivity.
  - destruct (f x); [now constructor | assumption].
  - destruct (f x), (f y); try reflexivity. apply perm_swap.
  - now apply perm_trans with (filter f l').
Qed.

Lemma list_sum_positive_counts (l : list (string * nat)) :
  list_sum (map snd (filter (fun kv => 0 <? snd kv) l)) = list_sum (map snd l).
Proof.
  induction l as [|[c n] l IH]; [reflexivity |].
  cbn [filter map snd]. destruct (0 <? n) eqn:E.
  - cbn [map snd]. now rewrite !list_sum_cons, IH.
  - apply Nat.ltb_ge in E. rewrite list_sum_cons, IH. lia.
Qed.

(** X16. In a table of at most ten columns with all labels different,
    [top_nulls] holds every column that has a null, with its count, and
    the counts add up to [total_nulls]. *)
Theorem top_nulls_complete_up_to_ten_columns (df : DataFrame) :
  NoDup (columns df) ->
  length (columns df) <= 10 ->
  Permutation (top_nulls_of df)
              (filter (fun kv => 0 <? snd kv) (Pandas.isna_sum df))
  /\ list_sum (map snd (top_nulls_of df)) = null_cells df.
Proof.
  intros Hnd Hlen. unfold top_nulls_of.
  rewrite to_dict_unique_labels
    by (unfold Pandas.isna_sum; now rewrite isna_sum_cols_labels).
  pose proof (sorted_by_count_desc_Permutation (Pandas.isna_sum df)) as HP.
  rewrite firstn_all2.
  - split.
    + now apply Permutation_filter.
    + rewrite list_sum_positive_counts.
      rewrite (list_sum_Permutation _ _ (Permutation_map snd HP)).
      unfold Pandas.isna_sum, null_cells. apply isna_sum_by_rows.
  - rewrite (Permutation_length HP).
    unfold Pandas.isna_sum.
    rewrite <- (length_map fst), isna_sum_cols_labels. exact Hlen.
Qed.

Lemma top_nulls_complete_up_to_ten_columns_witness :
  list_sum (map snd (top_nulls_of Lake.feb)) = null_cells Lake.feb.
Proof.
  assert (Hnd : NoDup (columns Lake.feb)).
  { repeat constructor; simpl; intuition discriminate. }
  assert (Hlen : length (columns Lake.feb) <= 10) by (simpl; lia).
  exact (proj2 (top_nulls_complete_up_to_ten_columns Lake.feb Hnd Hlen)).
Defined.

(** ** File names *)

Lemma prefix_iff_append (p s : string) :
  String.prefix p s = true <-> exists r, s = (p ++ r)%string.
Proof.
  revert s. induction p as [|a p IH]; intros s.
  - split; [intros _; now exists s | intros _; now destruct s].
  - destruct s as [|b s]; simpl.
    + split; [discriminate | intros [r Hr]; discriminate].
    + destruct (ascii_dec a b) as [->|Hne].
      * rewrite IH. split; intros [r Hr]; exists r; congruence.
      * split; [discriminate | intros [r Hr]; congruence].
Qed.

Lemma length_append (s t : string) :
  String.length (s ++ t) = String.length s + String.length t.
Proof. induction s as [|a s IH]; simpl; [reflexivity | now rewrite IH]. Qed.

(** X17. A file passes the name test exactly when its stem is the year, a
    dash and as many further characters as make seven in all, whatever
    those characters are.  For a year written with four digits that is the
    year, a dash and any two characters; for a year whose decimal form
    has more than six characters no file passes. *)
Theorem name_test_shape (year : Z) (f : Path) :
  (name_ok year f = true
   <-> exists tail,
         stem f = (str_int year ++ "-" ++ tail)%string
         /\ String.length (str_int year) + 1 + String.length tail = 7)
  /\ (String.length (str_int year) = 4 ->
      (name_ok year f = true
       <-> exists a b,
             stem f = (str_int year ++ "-" ++ String a (String b ""))%string))
  /\ (6 < String.length (str_int year) -> name_ok year f = false).
Proof.
  assert (Hshape :
    name_ok year f = true
    <-> exists tail,
          stem f = (str_int year ++ "-" ++ tail)%string
          /\ String.length (str_int year) + 1 + String.length tail = 7).
  { unfold name_ok, startswith.
    rewrite andb_true_iff, prefix_iff_append, Nat.eqb_eq. split.
    - intros [[r Hr] Hlen]. exists r.
      assert (E : ((str_int year ++ "-") ++ r = str_int year ++ "-" ++ r)%string).
      { clear. induction (str_int year) as [|a s IH]; simpl;
          [reflexivity | now rewrite IH]. }
      rewrite E in Hr. split; [exact Hr |].
      rewrite Hr, !length_append in Hlen. simpl in Hlen. lia.
    - intros [tail [Hs Hlen]].
      assert (E : ((str_int year ++ "-") ++ tail = str_int year ++ "-" ++ tail)%string).
      { clear. induction (str_int year) as [|a s IH]; simpl;
          [reflexivity | now rewrite IH]. }
      split; [exists tail; now rewrite E |].
      rewrite Hs, !length_append. simpl. lia. }
  split; [exact Hshape |]. split.
  - intros H4. rewrite Hshape. split.
    + intros [tail [Hs Hlen]]. rewrite H4 in Hlen.
      destruct tail as [|a [|b [|c t]]]; simpl in Hlen; try lia.
      now exists a, b.
    + intros [a [b Hs]]. exists (String a (String b "")).
      split; [exact Hs | rewrite H4; reflexivity].
  - intros H6. apply not_true_is_false. intros E.
    destruct (proj1 Hshape E) as [tail [_ Hlen]]. lia.
Qed.

Lemma rfind_dot_xlsx (base : string) :
  rfind "."%char (base ++ ".xlsx") = Some (String.length base).
Proof.
  induction base as [|a base IH]; [reflexivity |].
  cbn [append rfind String.length]. now rewrite IH.
Qed.

Lemma substring_prefix (s t : string) :
  substring 0 (String.length s) (s ++ t) = s.
Proof.
  induction s as [|a s IH]; simpl.
  - now destruct t.
  - now rewrite IH.
Qed.

(** X18. For a file named [base.xlsx] with a base that is not empty, the
    stem is [base]: the name test counts its seven characters and looks
    for the year without the extension. *)
Theorem stem_drops_xlsx (year : Z) (f : Path) (base : string) :
  base <> "" ->
  name f = (base ++ ".xlsx")%string ->
  stem f = base
  /\ name_ok year f
     = startswith base (str_int year ++ "-") && (String.length base =? 7).
Proof.
  intros Hne Hname.
  assert (Hstem : stem f = base).
  { unfold stem. rewrite Hname, rfind_dot_xlsx, length_append.
    destruct base as [|a base]; [congruence |].
    assert (Hlt : (0 <? String.length (String a base)) = true)
      by reflexivity.
    assert (Hlt2 : (String.length (String a base)
                    <? String.length (String a base)
                       + String.length ".xlsx" - 1) = true).
    { apply Nat.ltb_lt. simpl. lia. }
    rewrite Hlt, Hlt2. apply substring_prefix. }
  split; [exact Hstem |]. unfold name_ok. now rewrite Hstem.
Qed.

Lemma stem_drops_xlsx_witness :
  stem Lake.jan_2023 = "2023-01" /\ name_ok 2023 Lake.jan_2023 = true.
Proof.
  assert (Hne : "2023-01" <> "") by discriminate.
  destruct (stem_drops_xlsx 2023 Lake.jan_2023 "2023-01" Hne eq_refl)
    as [Hs Hn].
  split; [exact Hs | rewrite Hn; reflexivity].
Defined.

(** ** The pipeline runner *)



(** X21. When [TOT_DATALAKE_ROOT] is unset or empty, both programs end
    with the [RuntimeError] that asks for it before doing anything: the
    runner creates no directory and prints nothing, the validator looks
    at no directory, loads no file and writes no report. *)
Theorem unconfigured_root_stops_both_programs
    (w : World) (pr : Process) (stage : string)
    (year : Z) (sheet : option string) (strict_names : bool) :
  getenv w "TOT_DATALAKE_ROOT" = None
  \/ getenv w "TOT_DATALAKE_ROOT" = Some "" ->
  RunPipeline.main w stage
    = ([], inl (Raised (RuntimeError root_missing_message)))
  /\ main w pr year sheet strict_names
       = ([], inl (Raised (RuntimeError root_missing_message)))
  /\ forall exists_ glob read,
       validate_year
         (mkWorld (getenv w) (expanduser_resolve w) (resolve w) (path_str w)
                  exists_ glob read)
         year sheet strict_names
       = inl (RuntimeError root_missing_message).
Proof.
  intros Hroot.
  assert (Hr : forall w', getenv w' = getenv w ->
                 resolve_paths w' = inl (RuntimeError root_missing_message)).
  { intros w' Hg. unfold resolve_paths.
    rewrite (env_unset w' "TOT_DATALAKE_ROOT" None)
      by (rewrite Hg; exact Hroot).
    reflexivity. }
  split; [| split].
  - unfold RunPipeline.main. now rewrite (Hr w eq_refl).
  - unfold main, validate_year. now rewrite (Hr w eq_refl).
  - intros exists_ glob read. unfold validate_year.
    now rewrite (Hr (mkWorld (getenv w) (expanduser_resolve w) (resolve w)
                             (path_str w) exists_ glob read) eq_refl).
Qed.

Lemma unconfigured_root_stops_both_programs_witness :
  RunPipeline.main Run.no_root "all"
    = ([], inl (Raised (RuntimeError root_missing_message))).
Proof.
  exact (proj1 (unconfigured_root_stops_both_programs Run.no_root Run.process
                  "all" 2023 None false (or_introl eq_refl))).
Defined.

(** ** Names that are no year and month *)

(** C9, on names the test lets through.  The directory of 2023 holds
    [2023-01.xlsx], [2023-13.xlsx] and [2023-ab.xlsx].  The last two are
    not of the form [YYYY-MM.xlsx] that the comment of line 138 and the
    help of [--strict-names] ask for, yet their stems start with [2023-]
    and have seven characters, so the test of line 140 passes them: with
    strict naming on, [name_issues] is empty and the status is [ok].  All
    three files are processed and have their entries in [files]. *)
Theorem non_month_names_are_not_flagged :
  exists payload entries,
    validate_year Odd.world 2023 None true = inr (VDict payload)
    /\ dict_get "strict_name_pattern" payload = Some (VBool true)
    /\ is_year_month_name 2023 (name Odd.good) = true
    /\ is_year_month_name 2023 (name Odd.thirteenth) = false
    /\ is_year_month_name 2023 (name Odd.letters) = false
    /\ name_ok 2023 Odd.thirteenth = true
    /\ name_ok 2023 Odd.letters = true
    /\ dict_get "name_issues" payload = Some (VList [])
    /\ dict_get "status" payload = Some (VStr "ok")
    /\ dict_get "files" payload = Some (VList entries)
    /\ map (value_get "file") entries
         = [Some (VStr "2023-01.xlsx"); Some (VStr "2023-13.xlsx");
            Some (VStr "2023-ab.xlsx")].
Proof.
  eexists _, _. split; [vm_compute; reflexivity |].
  repeat split.
Qed.
